(** * The bulk-crawl client, [examples/bulk_crawl_example.py]

    A shallow embedding of the [BulkCrawler] class and of [main]:
    the methods are programs over the effects the script performs
    (HTTP calls, [print], [time.sleep], [time.time], file access), and the
    Python values they handle (JSON documents, integers, binary64 floats)
    are modelled with the exceptions the interpreter raises on them. *)

From Stdlib Require Import ZArith List String Ascii Bool Lia DecimalString SpecFloat.
Import ListNotations.
Local Open Scope Z_scope.
Set Warnings "-register-all".

(** ** Python values *)

Module Py.

(** The classes of [Exception] the script can meet. *)
Inductive error : Type :=
| AttributeError
| KeyError
| TypeError
| ValueError
| ZeroDivisionError
| OverflowError
| OSError
| RequestException
| JSONDecodeError.

(** What can be raised: an [Exception], or the [KeyboardInterrupt] of the
    operator, which does not derive from [Exception]. *)
Inductive exn : Type :=
| KeyboardInterrupt
| Exception (c : error).

Definition is_Exception (e : exn) : bool :=
  match e with
  | KeyboardInterrupt => false
  | Exception _ => true
  end.

(** A step either yields a value or raises. *)
Inductive result (E A : Type) : Type :=
| Ok (a : A)
| Raise (e : E).
Arguments Ok {E A} a.
Arguments Raise {E A} e.

(** The result of evaluating an expression: it raises exceptions only. *)
Definition value (A : Type) : Type := result error A.

(** The answer of the environment to an effect: the interrupt of the
    operator can arrive there too. *)
Definition answer (A : Type) : Type := result exn A.

Definition is_ok {E A} (r : result E A) : bool :=
  match r with Ok _ => true | Raise _ => false end.

Definition rbind {E A B} (r : result E A) (k : A -> result E B) : result E B :=
  match r with
  | Ok a => k a
  | Raise e => Raise e
  end.

(** What [json.loads] builds.  Numbers with a fraction or an exponent
    (Python floats) are not part of this model: the counters and flags of the
    service are integers, booleans, strings and objects. *)
Inductive json : Type :=
| JNull
| JBool (b : bool)
| JInt (z : Z)
| JStr (s : string)
| JList (l : list json)
| JDict (d : list (string * json)).


(** The value a dict built pair by pair holds for [key]: a later pair
    with the same key replaces an earlier one. *)
Fixpoint lookup {V} (key : string) (d : list (string * V)) : option V :=
  match d with
  | [] => None
  | (k, v) :: rest =>
      match lookup key rest with
      | Some w => Some w
      | None => if String.eqb key k then Some v else None
      end
  end.

(** [obj.get(key, default)]: only a dict has the method. *)
Definition py_get (obj : json) (key : string) (default : json) : value json :=
  match obj with
  | JDict d => Ok (match lookup key d with Some v => v | None => default end)
  | _ => Raise AttributeError
  end.

(** Truth value of an object, as [if x:] tests it. *)
Definition truthy (v : json) : bool :=
  match v with
  | JNull => false
  | JBool b => b
  | JInt z => negb (z =? 0)
  | JStr s => negb (String.eqb s EmptyString)
  | JList l => match l with [] => false | _ => true end
  | JDict d => match d with [] => false | _ => true end
  end.

(** [bool] is a subclass of [int]: both take part in arithmetic. *)
Definition as_int (v : json) : option Z :=
  match v with
  | JInt z => Some z
  | JBool b => Some (if b then 1 else 0)
  | _ => None
  end.

(** [v == 0] *)
Definition eq0 (v : json) : bool :=
  match as_int v with
  | Some z => z =? 0
  | None => false
  end.

(** An operand of [-], [/], [>] or [max] that must be a number. *)
Definition number (v : json) : value Z :=
  match as_int v with
  | Some z => Ok z
  | None => Raise TypeError
  end.

(** ** Text *)

Definition fstr (parts : list string) : string := String.concat EmptyString parts.

Definition str_int (z : Z) : string := NilZero.string_of_int (Z.to_int z).

(** [str(v)] of a number, as an f-string field without format shows it. *)
Definition str_number (v : json) : value string :=
  match v with
  | JInt z => Ok (str_int z)
  | JBool true => Ok "True"%string
  | JBool false => Ok "False"%string
  | _ => Raise TypeError
  end.

Fixpoint str_repeat (s : string) (n : nat) : string :=
  match n with
  | O => EmptyString
  | S n' => String.append s (str_repeat s n')
  end.

(** [s * n] on a string: nothing for a negative count. *)
Definition str_mul (s : string) (n : Z) : string := str_repeat s (Z.to_nat n).

Fixpoint group3_rev (digits : list ascii) (seen : nat) : list ascii :=
  match digits with
  | [] => []
  | c :: rest =>
      match rest with
      | [] => [c]
      | _ :: _ =>
          if Nat.eqb seen 2 then c :: ","%char :: group3_rev rest 0
          else c :: group3_rev rest (S seen)
      end
  end.

Definition group3 (digits : string) : string :=
  string_of_list_ascii (rev (group3_rev (rev (list_ascii_of_string digits)) 0)).

Definition comma_int (z : Z) : string :=
  if z <? 0 then String.append "-" (group3 (str_int (Z.abs z)))
  else group3 (str_int z).

(** [format(v, ',')]: integers and booleans only; a string refuses the
    separator with [ValueError], the other types with [TypeError]. *)
Definition format_comma (v : json) : value string :=
  match v with
  | JInt z => Ok (comma_int z)
  | JBool b => Ok (comma_int (if b then 1 else 0))
  | JStr _ => Raise ValueError
  | _ => Raise TypeError
  end.

(** ** [int(s)] on a string *)

Definition is_space (c : ascii) : bool :=
  let n := Z.of_nat (nat_of_ascii c) in
  (n =? 32) || ((9 <=? n) && (n <=? 13)).

Definition digit_val (c : ascii) : option Z :=
  let n := Z.of_nat (nat_of_ascii c) in
  if (48 <=? n) && (n <=? 57) then Some (n - 48) else None.

Fixpoint lstrip (l : list ascii) : list ascii :=
  match l with
  | c :: rest => if is_space c then lstrip rest else l
  | [] => []
  end.

Definition strip (l : list ascii) : list ascii := rev (lstrip (rev (lstrip l))).

(** Digits with single underscores between them; [after_digit] tells whether
    the previous character was a digit. *)
Fixpoint digits_value (l : list ascii) (acc : Z) (after_digit : bool) : option Z :=
  match l with
  | [] => if after_digit then Some acc else None
  | c :: rest =>
      match digit_val c with
      | Some d => digits_value rest (10 * acc + d) true
      | None =>
          if Ascii.eqb c "_"%char && after_digit then digits_value rest acc false
          else None
      end
  end.

Definition int_of_chars (l : list ascii) : option Z :=
  match strip l with
  | c :: rest =>
      if Ascii.eqb c "-"%char then option_map Z.opp (digits_value rest 0 false)
      else if Ascii.eqb c "+"%char then digits_value rest 0 false
      else digits_value (c :: rest) 0 false
  | [] => None
  end.

(** [int(s)] for an ASCII string [s], base 10. *)
Definition int_of_str (s : string) : value Z :=
  match int_of_chars (list_ascii_of_string s) with
  | Some z => Ok z
  | None => Raise ValueError
  end.

(** ** Floats

    A Python float is an IEEE 754 binary64 number; [spec_float] with
    precision 53 and maximal exponent 1024 is that format, and its operations
    round to nearest, ties to even, as the interpreter's do. *)

Definition pyfloat : Type := spec_float.

Definition prec : Z := 53.
Definition emax : Z := 1024.

Definition is_inf (f : pyfloat) : bool :=
  match f with S754_infinity _ => true | _ => false end.

Definition is_nan (f : pyfloat) : bool :=
  match f with S754_nan => true | _ => false end.

Definition is_zero (f : pyfloat) : bool :=
  match f with S754_zero _ => true | _ => false end.

Definition sign_bit (f : pyfloat) : bool :=
  match f with
  | S754_zero s | S754_infinity s | S754_finite s _ _ => s
  | S754_nan => false
  end.

(** The least magnitude that rounds beyond the largest float: half way
    between [2^1024 - 2^971] and [2^1024]. *)
Definition overflow_threshold : Z := 2 ^ 1024 - 2 ^ 970.

(** [float(z)]: the nearest float, [OverflowError] beyond the range. *)
Definition float_of_int (z : Z) : value pyfloat :=
  if overflow_threshold <=? Z.abs z then Raise OverflowError
  else Ok (binary_normalize prec emax z 0 false).

(** [a / b] on two integers: the quotient is rounded once, from its exact
    value.  The quotient is taken with at least 63 bits and one more bit
    telling whether a remainder was left, which rounds as the exact value. *)
Definition int_truediv (a b : Z) : value pyfloat :=
  if b =? 0 then Raise ZeroDivisionError
  else
    let neg := xorb (a <? 0) (b <? 0) in
    if a =? 0 then Ok (S754_zero neg)
    else
      let n := Z.abs a in
      let d := Z.abs b in
      if overflow_threshold * d <=? n then Raise OverflowError
      else
        let k := Z.max 0 (Z.log2 d - Z.log2 n + 64) in
        let q := (n * 2 ^ k) / d in
        let sticky := if (n * 2 ^ k) mod d =? 0 then 0 else 1 in
        Ok (binary_normalize prec emax (cond_Zopp neg (2 * q + sticky)) (- k - 1) false).

(** [x / y] on two floats. *)
Definition float_truediv (x y : pyfloat) : value pyfloat :=
  if is_zero y then Raise ZeroDivisionError else Ok (SFdiv prec emax x y).

Definition float_mul (x y : pyfloat) : pyfloat := SFmul prec emax x y.
Definition float_sub (x y : pyfloat) : pyfloat := SFsub prec emax x y.
Definition float_add (x y : pyfloat) : pyfloat := SFadd prec emax x y.

(** A number of the interpreter: an [int] or a [float]. *)
Inductive pynum : Type :=
| PInt (z : Z)
| PFloat (f : pyfloat).

Definition to_float (x : pynum) : value pyfloat :=
  match x with
  | PInt z => float_of_int z
  | PFloat f => Ok f
  end.

(** [x / y] *)
Definition num_truediv (x y : pynum) : value pyfloat :=
  match x, y with
  | PInt a, PInt b => int_truediv a b
  | _, _ =>
      rbind (to_float x) (fun fx =>
      rbind (to_float y) (fun fy => float_truediv fx fy))
  end.

(** [x * y] *)
Definition num_mul (x y : pynum) : value pynum :=
  match x, y with
  | PInt a, PInt b => Ok (PInt (a * b))
  | _, _ =>
      rbind (to_float x) (fun fx =>
      rbind (to_float y) (fun fy => Ok (PFloat (float_mul fx fy))))
  end.

(** Comparison of a float with an integer, on the exact values. *)
Definition float_int_compare (f : pyfloat) (z : Z) : option comparison :=
  match f with
  | S754_nan => None
  | S754_infinity s => Some (if s then Lt else Gt)
  | S754_zero _ => Some (0 ?= z)
  | S754_finite s m e =>
      let v := cond_Zopp s (Zpos m) in
      Some (if 0 <=? e then (v * 2 ^ e ?= z) else (v ?= z * 2 ^ (- e)))
  end.

Definition num_compare (x y : pynum) : option comparison :=
  match x, y with
  | PInt a, PInt b => Some (a ?= b)
  | PFloat f, PInt b => float_int_compare f b
  | PInt a, PFloat g => option_map CompOpp (float_int_compare g a)
  | PFloat f, PFloat g => SFcompare f g
  end.

(** [x > y] *)
Definition num_gt (x y : pynum) : bool :=
  match num_compare x y with
  | Some Gt => true
  | _ => false
  end.

(** [math.fmod] as the C library computes it: exact, with the sign of [x]. *)
Definition float_fmod (x y : pyfloat) : pyfloat :=
  match x, y with
  | S754_nan, _ | _, S754_nan => S754_nan
  | S754_infinity _, _ => S754_nan
  | _, S754_zero _ => S754_nan
  | S754_zero _, _ => x
  | S754_finite _ _ _, S754_infinity _ => x
  | S754_finite sx mx ex, S754_finite _ my ey =>
      let e0 := Z.min ex ey in
      let r := (Zpos mx * 2 ^ (ex - e0)) mod (Zpos my * 2 ^ (ey - e0)) in
      binary_normalize prec emax (cond_Zopp sx r) e0 sx
  end.

(** [math.floor], kept as a float. *)
Definition float_floor (x : pyfloat) : pyfloat :=
  match x with
  | S754_finite s m e =>
      if 0 <=? e then x
      else binary_normalize prec emax (cond_Zopp s (Zpos m) / 2 ^ (- e)) 0 s
  | _ => x
  end.

Definition float_one : pyfloat := S754_finite false 4503599627370496 (-52).
Definition float_half : pyfloat := S754_finite false 4503599627370496 (-53).

(** [x // y] on floats, following the interpreter's [float_floor_div]:
    the quotient of [x - fmod(x, y)] by [y], moved down by one when the
    remainder and the divisor differ in sign, then snapped to an integer. *)
Definition float_floordiv (x y : pyfloat) : value pyfloat :=
  if is_zero y then Raise ZeroDivisionError
  else
    let md := float_fmod x y in
    let div := SFdiv prec emax (float_sub x md) y in
    let div :=
      if is_zero md then div
      else if negb (Bool.eqb (SFltb y (S754_zero false)) (SFltb md (S754_zero false)))
           then float_sub div float_one
           else div in
    if is_zero div then Ok (S754_zero (sign_bit (SFdiv prec emax x y)))
    else
      let fl := float_floor div in
      if SFltb float_half (float_sub div fl) then Ok (float_add fl float_one)
      else Ok fl.

(** [x // y] *)
Definition num_floordiv_float (x : pyfloat) (y : pynum) : value pyfloat :=
  rbind (to_float y) (fun fy => float_floordiv x fy).

(** [int(x)] on a float: towards zero. *)
Definition int_of_float (x : pyfloat) : value Z :=
  match x with
  | S754_nan => Raise ValueError
  | S754_infinity _ => Raise OverflowError
  | S754_zero _ => Ok 0
  | S754_finite s m e =>
      Ok (cond_Zopp s (if 0 <=? e then Zpos m * 2 ^ e else Zpos m / 2 ^ (- e)))
  end.

(** The number of tenths nearest to [m * 2^e], ties to even. *)
Definition tenths (m : positive) (e : Z) : Z :=
  if 0 <=? e then 10 * Zpos m * 2 ^ e
  else
    let n := 10 * Zpos m in
    let d := 2 ^ (- e) in
    let q := n / d in
    match 2 * (n mod d) ?= d with
    | Lt => q
    | Gt => q + 1
    | Eq => if Z.even q then q else q + 1
    end.

(** [format(x, '.1f')] on a float. *)
Definition format_1f_float (x : pyfloat) : string :=
  match x with
  | S754_nan => "nan"%string
  | S754_infinity s => if s then "-inf"%string else "inf"%string
  | S754_zero s => if s then "-0.0"%string else "0.0"%string
  | S754_finite s m e =>
      let t := tenths m e in
      fstr [if s then "-"%string else EmptyString; str_int (t / 10); "."%string; str_int (t mod 10)]
  end.

(** [format(x, '.1f')]: an integer is converted to a float first. *)
Definition format_1f (x : pynum) : value string :=
  rbind (to_float x) (fun f => Ok (format_1f_float f)).

End Py.

(** ** Effects

    A method is a tree of the effects it asks for; the environment answers
    each one with a value or with an exception.  A [KeyboardInterrupt] is
    delivered as the answer to the effect during which it arrives. *)

Module IO.
Import Py.

(** What [requests] hands back: the status, the bytes of the body
    ([response.content]), the body decoded to a string ([response.text]), and
    what [response.json()] yields ([None] when the body is not JSON).  A Python
    string is represented by its UTF-8 encoding. *)
Record Response : Type := mkResponse {
  status_code : Z;
  content : string;
  text : string;
  json_body : option json
}.

Definition response_json (r : Response) : value json :=
  match json_body r with
  | Some j => Ok j
  | None => Raise JSONDecodeError
  end.

(** A row of [csv.DictReader]: the header's names paired with the row's
    cells, in column order; a cell the row is too short for is [None].  The
    row is the dict of these pairs. *)
Definition csv_row : Type := list (string * option string).

(** A printed line: plain text, text around [str(v)] of a value of the
    response, or text followed by [str(e)] of an exception. *)
Inductive message : Type :=
| Msg (s : string)
| MsgValue (before : string) (v : json) (after : string)
| MsgExn (before : string) (e : exn).

Inductive event : Type -> Type :=
| EPrint (line : message) : event unit
| EPost (url : string) (body : json) : event Response
| EGet (url : string) : event Response
| ESleep (seconds : pynum) : event unit
| ETime : event pyfloat
| EReadCsv (path : string) : event (list csv_row)
| EOpenWrite (path : string) : event unit
| EWrite (path : string) (data : string) : event unit.

Inductive prog (A : Type) : Type :=
| Ret (a : A)
| Throw (e : exn)
| Vis {X : Type} (ev : event X) (k : answer X -> prog A).
Arguments Ret {A} a.
Arguments Throw {A} e.
Arguments Vis {A X} ev k.

Fixpoint bind {A B} (p : prog A) (f : A -> prog B) : prog B :=
  match p with
  | Ret a => f a
  | Throw e => Throw e
  | Vis ev k => Vis ev (fun r => bind (k r) f)
  end.

(** [try: p except ...: handler e]; a handler re-raises what its clauses do
    not name. *)
Fixpoint try_except {A} (p : prog A) (handler : exn -> prog A) : prog A :=
  match p with
  | Ret a => Ret a
  | Throw e => handler e
  | Vis ev k => Vis ev (fun r => try_except (k r) handler)
  end.

(** An effect whose exception, if any, is raised on. *)
Definition resume {A} (r : answer A) : prog A :=
  match r with
  | Ok a => Ret a
  | Raise e => Throw e
  end.

Definition perform {X} (ev : event X) : prog X := Vis ev resume.

(** An expression evaluated inside a program. *)
Definition lift {A} (r : value A) : prog A :=
  match r with
  | Ok a => Ret a
  | Raise c => Throw (Exception c)
  end.

Declare Scope prog_scope.
Delimit Scope prog_scope with prog.
Bind Scope prog_scope with prog.
Notation "x <- p ;; q" := (bind p (fun x => q))
  (at level 61, p at next level, right associativity) : prog_scope.
Notation "p ;; q" := (bind p (fun _ => q))
  (at level 61, right associativity) : prog_scope.

Definition print (line : message) : prog unit := perform (EPrint line).
Definition requests_post (url : string) (body : json) : prog Response := perform (EPost url body).
Definition requests_get (url : string) : prog Response := perform (EGet url).
Definition time_time : prog pyfloat := perform ETime.

(** [time.sleep] refuses a negative length before it waits. *)
Definition time_sleep (seconds : pynum) : prog unit :=
  if num_gt (PInt 0) seconds then Throw (Exception ValueError) else perform (ESleep seconds).

(** *** Running a program against an environment *)

Inductive entry : Type :=
| Entry {X : Type} (ev : event X) (answer : answer X).

Definition trace : Type := list entry.

(** The environment: a state and its answer to each effect. *)
Definition handler (S : Type) : Type := forall X, event X -> S -> answer X * S.

Fixpoint run {S A} (h : handler S) (p : prog A) (s : S) : answer A * S * trace :=
  match p with
  | Ret a => (Ok a, s, [])
  | Throw e => (Raise e, s, [])
  | Vis ev k =>
      let '(r, s1) := h _ ev s in
      let '(res, s2, t) := run h (k r) s1 in
      (res, s2, Entry ev r :: t)
  end.

Definition outcome {S A} (x : answer A * S * trace) : answer A := fst (fst x).
Definition events {S A} (x : answer A * S * trace) : trace := snd x.

(** The environment raised nothing at this entry. *)
Definition answered (en : entry) : bool :=
  match en with Entry _ r => is_ok r end.

(** The import calls of a trace, each with its answer. *)
Definition post_of (en : entry) : option (string * json * answer Response) :=
  match en with
  | Entry ev r =>
      match ev in event X return answer X -> option (string * json * answer Response) with
      | EPost url body => fun r => Some (url, body, r)
      | _ => fun _ => None
      end r
  end.

Fixpoint posts (t : trace) : list (string * json * answer Response) :=
  match t with
  | [] => []
  | en :: rest =>
      match post_of en with
      | Some c => c :: posts rest
      | None => posts rest
      end
  end.

(** The network calls and the pauses of a trace, without the answers. *)
Inductive action : Type :=
| APost (url : string) (body : json)
| AGet (url : string)
| ASleep (seconds : pynum).

Definition action_of (en : entry) : option action :=
  match en with
  | Entry ev _ =>
      match ev with
      | EPost url body => Some (APost url body)
      | EGet url => Some (AGet url)
      | ESleep d => Some (ASleep d)
      | _ => None
      end
  end.

Fixpoint actions (t : trace) : list action :=
  match t with
  | [] => []
  | en :: rest =>
      match action_of en with
      | Some a => a :: actions rest
      | None => actions rest
      end
  end.

(** What a trace wrote to files. *)
Inductive file_op : Type :=
| FOpen (path : string)
| FWrite (path : string) (data : string).

Definition file_op_of (en : entry) : option file_op :=
  match en with
  | Entry ev _ =>
      match ev with
      | EOpenWrite path => Some (FOpen path)
      | EWrite path data => Some (FWrite path data)
      | _ => None
      end
  end.

Fixpoint file_ops (t : trace) : list file_op :=
  match t with
  | [] => []
  | en :: rest =>
      match file_op_of en with
      | Some a => a :: file_ops rest
      | None => file_ops rest
      end
  end.

(** The lines a trace printed. *)
Definition line_of (en : entry) : option message :=
  match en with
  | Entry ev _ =>
      match ev with
      | EPrint line => Some line
      | _ => None
      end
  end.

Fixpoint printed (t : trace) : list message :=
  match t with
  | [] => []
  | en :: rest =>
      match line_of en with
      | Some a => a :: printed rest
      | None => printed rest
      end
  end.

(** The answers a trace got to its GET calls. *)
Definition get_of (en : entry) : option (string * answer Response) :=
  match en with
  | Entry ev r =>
      match ev in event X return answer X -> option (string * answer Response) with
      | EGet url => fun r => Some (url, r)
      | _ => fun _ => None
      end r
  end.

Fixpoint gets (t : trace) : list (string * answer Response) :=
  match t with
  | [] => []
  | en :: rest =>
      match get_of en with
      | Some c => c :: gets rest
      | None => gets rest
      end
  end.

(** The operator's interrupt arrived during this entry. *)
Definition interrupted (en : entry) : bool :=
  match en with
  | Entry _ (Raise KeyboardInterrupt) => true
  | Entry _ _ => false
  end.

(** *** Properties that hold against every environment *)

(** [wp p Q]: whatever the environment answers, the outcome and the trace
    of [p] satisfy [Q]. *)
Fixpoint wp {A} (p : prog A) (Q : answer A -> trace -> Prop) : Prop :=
  match p with
  | Ret a => Q (Ok a) []
  | Throw e => Q (Raise e) []
  | Vis ev k => forall r, wp (k r) (fun res t => Q res (Entry ev r :: t))
  end.

End IO.
(** ** The [BulkCrawler] class *)

Module BulkCrawler.
Import Py IO.
Local Open Scope string_scope.
Local Open Scope prog_scope.

Definition nl : string := String "010"%char EmptyString.
Definition esc : string := String "027"%char EmptyString.
Definition str_nat (n : nat) : string := str_int (Z.of_nat n).

Record crawler : Type := mkCrawler {
  base_url : string;
  api_base : string
}.

(** [__init__] *)
Definition init (url : string) : crawler :=
  {| base_url := url; api_base := fstr [url; "/api/v2"] |}.

(** *** [import_domains_from_csv] *)

Record DomainRecord : Type := mkDomain {
  domain : option string;
  webmasterEmail : option string;
  maxPages : Z
}.

Definition cell_json (c : option string) : json :=
  match c with
  | Some s => JStr s
  | None => JNull
  end.

Definition domain_json (d : DomainRecord) : json :=
  JDict [("domain", cell_json (domain d));
         ("webmasterEmail", cell_json (webmasterEmail d));
         ("maxPages", JInt (maxPages d))].

(** [row[key]] *)
Definition row_item (row : csv_row) (key : string) : value (option string) :=
  match lookup key row with
  | Some c => Ok c
  | None => Raise KeyError
  end.

(** [int(row.get('max_pages', 5))] *)
Definition row_max_pages (row : csv_row) : value Z :=
  match lookup "max_pages" row with
  | None => Ok 5
  | Some (Some s) => int_of_str s
  | Some None => Raise TypeError
  end.

(** The dict appended for one row (lines 34-38). *)
Definition domain_of_row (row : csv_row) : value DomainRecord :=
  rbind (row_item row "domain") (fun d =>
  rbind (row_item row "webmaster_email") (fun w =>
  rbind (row_max_pages row) (fun m =>
  Ok {| domain := d; webmasterEmail := w; maxPages := m |}))).

(** [for row in reader: domains.append(...)] *)
Fixpoint read_rows (rows : list csv_row) (domains : list DomainRecord)
  : value (list DomainRecord) :=
  match rows with
  | [] => Ok domains
  | row :: rest =>
      rbind (domain_of_row row) (fun d => read_rows rest (domains ++ [d])%list)
  end.

Definition batch_size : nat := 100.

(** [range(i, stop, step)] for a positive step. *)
Fixpoint range_from (fuel : nat) (i stop step : nat) : list nat :=
  match fuel with
  | O => []
  | S fuel' =>
      if Nat.ltb i stop then i :: range_from fuel' (i + step) stop step else []
  end.

Definition py_range (start stop step : nat) : list nat :=
  range_from (stop - start) start stop step.

(** [l[i:j]] for [0 <= i <= j] *)
Definition py_slice {A} (l : list A) (i j : nat) : list A :=
  firstn (j - i) (skipn i l).

Definition import_body (batch : list DomainRecord) : json :=
  JDict [("domains", JList (map domain_json batch))].

Definition import_url (self : crawler) : string :=
  fstr [api_base self; "/domains/bulk"].

Definition half_second : pynum := PFloat float_half.

(** The loop of lines 46-68 over the indices still to visit, and the two
    lines after it. *)
Fixpoint import_batches (self : crawler) (domains : list DomainRecord)
    (indices : list nat) (imported_count : nat) : prog bool :=
  match indices with
  | [] =>
      print (Msg (fstr ["🎉 Successfully imported "; str_nat imported_count; " domains"]));;
      Ret true
  | i :: rest =>
      let batch := py_slice domains i (i + batch_size) in
      response <- requests_post (import_url self) (import_body batch);;
      if (status_code response =? 200)%Z then
        result <- lift (response_json response);;
        success <- lift (py_get result "success" JNull);;
        if truthy success then
          let imported_count := (imported_count + List.length batch)%nat in
          print (Msg (fstr ["✅ Imported batch "; str_nat (i / batch_size + 1)%nat; ": ";
                            str_nat (List.length batch); " domains"]));;
          time_sleep half_second;;
          import_batches self domains rest imported_count
        else
          message <- lift (py_get result "message" JNull);;
          print (MsgValue (fstr ["❌ Failed to import batch ";
                                 str_nat (i / batch_size + 1)%nat; ": "]) message "");;
          Ret false
      else
        print (Msg (fstr ["❌ HTTP Error "; str_int (status_code response);
                          " importing batch "; str_nat (i / batch_size + 1)%nat]));;
        Ret false
  end.

Definition import_domains_from_csv (self : crawler) (csv_file : string) : prog bool :=
  print (Msg (fstr ["📂 Reading domains from "; csv_file; "..."]));;
  rows <- perform (EReadCsv csv_file);;
  domains <- lift (read_rows rows []);;
  print (Msg (fstr ["📝 Found "; str_nat (List.length domains); " domains to import"]));;
  import_batches self domains (py_range 0 (List.length domains) batch_size) 0.

(** *** [start_bulk_crawl] *)

Definition crawl_config (max_concurrent : Z) : json :=
  JDict [("maxConcurrent", JInt max_concurrent);
         ("emailNotifications", JBool true);
         ("crawlConfig",
          JDict [("maxPages", JInt 5);
                 ("maxDepth", JInt 3);
                 ("politenessDelay", JInt 1000);
                 ("respectRobotsTxt", JBool true);
                 ("restrictToSeedDomain", JBool true);
                 ("requestTimeout", JInt 30000)])].

Definition crawl_url (self : crawler) : string :=
  fstr [api_base self; "/domains/crawl/bulk"].

(** The batch identifier, or [JNull] for Python's [None]. *)
Definition start_bulk_crawl (self : crawler) (max_concurrent : Z) : prog json :=
  print (Msg (fstr ["🚀 Starting bulk crawl with "; str_int max_concurrent;
                    " concurrent workers..."]));;
  response <- requests_post (crawl_url self) (crawl_config max_concurrent);;
  if (status_code response =? 200)%Z then
    result <- lift (response_json response);;
    success <- lift (py_get result "success" JNull);;
    if truthy success then
      data <- lift (py_get result "data" (JDict []));;
      batch_id <- lift (py_get data "batchId" JNull);;
      print (MsgValue "✅ Bulk crawl started successfully (Batch ID: " batch_id ")");;
      Ret batch_id
    else
      message <- lift (py_get result "message" JNull);;
      print (MsgValue "❌ Failed to start bulk crawl: " message "");;
      Ret JNull
  else
    print (Msg (fstr ["❌ HTTP Error "; str_int (status_code response);
                      " starting bulk crawl"]));;
    Ret JNull.

(** *** [get_stats] *)

Definition domain_stats_url (self : crawler) : string :=
  fstr [api_base self; "/domains/stats"].
Definition queue_stats_url (self : crawler) : string :=
  fstr [api_base self; "/domains/queue/stats"].

(** [r.json().get('data', {}) if r.status_code == 200 else {}] *)
Definition stats_of (r : Response) : value json :=
  if (status_code r =? 200)%Z then
    rbind (response_json r) (fun j => py_get j "data" (JDict []))
  else Ok (JDict []).

(** The returned dict, as the pair of its ["domains"] and ["queue"] items. *)
Definition get_stats (self : crawler) : prog (json * json) :=
  try_except
    (domain_response <- requests_get (domain_stats_url self);;
     queue_response <- requests_get (queue_stats_url self);;
     domain_stats <- lift (stats_of domain_response);;
     queue_stats <- lift (stats_of queue_response);;
     Ret (domain_stats, queue_stats))
    (fun e =>
       if is_Exception e then
         print (MsgExn "❌ Error getting stats: " e);;
         Ret (JDict [], JDict [])
       else Throw e).

(** *** [monitor_progress] *)

(** [stats.get(key, 0)] *)
Definition counter (stats : json) (key : string) : value json :=
  py_get stats key (JInt 0).

(** [max(total_domains, 1)]: the second argument wins only when greater. *)
Definition max_with_1 (total_domains : json) : value Z :=
  rbind (number total_domains) (fun t => Ok (if (1 >? t)%Z then 1%Z else t)).

Definition rule (n : nat) : string := str_repeat "=" n.

Definition bar_length : Z := 50.

(** Lines 186-189: the percentage and the bar. *)
Definition progress_percent (completed total_domains : Z) : value pynum :=
  rbind (int_truediv completed total_domains) (fun q => num_mul (PFloat q) (PInt 100)).

Definition filled_length (percent : pynum) : value Z :=
  rbind (num_mul (PInt bar_length) percent) (fun x =>
  rbind (to_float x) (fun fx =>
  rbind (num_floordiv_float fx (PInt 100)) int_of_float)).

Definition progress_bar (filled : Z) : string :=
  fstr [str_mul "█" filled; str_mul "-" (bar_length - filled)].

(** Line 158:
    [(completed - last_completed) / check_interval
     if elapsed_time > check_interval else 0] *)
Definition completion_rate_of (check_interval : Z) (elapsed_time : pyfloat)
    (completed last_completed : json) : value pynum :=
  if num_gt (PFloat elapsed_time) (PInt check_interval) then
    rbind (number completed) (fun c =>
    rbind (number last_completed) (fun l =>
    rbind (int_truediv (c - l) check_interval) (fun f => Ok (PFloat f))))
  else Ok (PInt 0).

(** Line 159: [(pending / completion_rate) if completion_rate > 0 else 0] *)
Definition eta_seconds_of (pending : json) (completion_rate : pynum) : value pynum :=
  if num_gt completion_rate (PInt 0) then
    rbind (number pending) (fun p =>
    rbind (num_truediv (PInt p) completion_rate) (fun f => Ok (PFloat f)))
  else Ok (PInt 0).

(** What one poll leaves the loop with. *)
Inductive poll_result : Type :=
| Completed
| Pending (completed : json).

(** Lines 138-203: one poll, the dashboard and the completion check. *)
Definition monitor_dashboard (check_interval : Z) (start_time : pyfloat)
    (last_completed : json) (domain_stats queue_stats : json) : prog poll_result :=
  total_domains <- lift (counter domain_stats "totalDomains");;
  completed <- lift (counter domain_stats "completedDomains");;
  failed <- lift (counter domain_stats "failedDomains");;
  crawling <- lift (counter domain_stats "crawlingDomains");;
  pending <- lift (counter domain_stats "pendingDomains");;
  emails_sent <- lift (counter domain_stats "emailsSent");;
  queue_pending <- lift (counter queue_stats "pending");;
  queue_processing <- lift (counter queue_stats "processing");;
  queue_completed <- lift (counter queue_stats "completed");;
  queue_failed <- lift (counter queue_stats "failed");;
  now <- time_time;;
  let elapsed_time := float_sub now start_time in
  completion_rate <- lift
    (completion_rate_of check_interval elapsed_time completed last_completed);;
  eta_seconds <- lift (eta_seconds_of pending completion_rate);;
  print (Msg (fstr [esc; "[2J"; esc; "[H"]));;
  print (Msg "🔍 **BULK CRAWLING DASHBOARD** 🔍");;
  print (Msg (rule 80));;
  runtime <- lift (rbind (num_truediv (PFloat elapsed_time) (PInt 60))
                         (fun m => format_1f (PFloat m)));;
  print (Msg (fstr ["⏰ Runtime: "; runtime; " minutes"]));;
  percent <- lift
    (rbind (max_with_1 total_domains) (fun m =>
     rbind (number completed) (fun c =>
     rbind (int_truediv c m) (fun q =>
     rbind (num_mul (PFloat q) (PInt 100)) format_1f))));;
  shown_completed <- lift (str_number completed);;
  shown_total <- lift (str_number total_domains);;
  print (Msg (fstr ["📊 Progress: "; shown_completed; "/"; shown_total;
                    " domains ("; percent; "%)"]));;
  rate <- lift (rbind (num_mul completion_rate (PInt 60)) format_1f);;
  print (Msg (fstr ["🏃 Rate: "; rate; " domains/minute"]));;
  eta <- lift (rbind (num_truediv eta_seconds (PInt 60))
                     (fun m => format_1f (PFloat m)));;
  print (Msg (fstr ["⏳ ETA: "; eta; " minutes remaining"]));;
  print (Msg "");;
  print (Msg "📋 **DOMAIN STATUS**");;
  s <- lift (format_comma completed);;
  print (Msg (fstr ["  ✅ Completed: "; s]));;
  s <- lift (format_comma pending);;
  print (Msg (fstr ["  ⏳ Pending: "; s]));;
  s <- lift (format_comma crawling);;
  print (Msg (fstr ["  🚀 Crawling: "; s]));;
  s <- lift (format_comma failed);;
  print (Msg (fstr ["  ❌ Failed: "; s]));;
  s <- lift (format_comma emails_sent);;
  print (Msg (fstr ["  📧 Emails Sent: "; s]));;
  print (Msg "");;
  print (Msg "🔄 **JOB QUEUE STATUS**");;
  s <- lift (format_comma queue_pending);;
  print (Msg (fstr ["  ⏳ Queue Pending: "; s]));;
  s <- lift (format_comma queue_processing);;
  print (Msg (fstr ["  ⚡ Processing: "; s]));;
  s <- lift (format_comma queue_completed);;
  print (Msg (fstr ["  ✅ Queue Completed: "; s]));;
  s <- lift (format_comma queue_failed);;
  print (Msg (fstr ["  ❌ Queue Failed: "; s]));;
  print (Msg "");;
  total <- lift (number total_domains);;
  (if (total >? 0)%Z then
     c <- lift (number completed);;
     percent <- lift (progress_percent c total);;
     filled <- lift (filled_length percent);;
     shown <- lift (format_1f percent);;
     print (Msg (fstr ["📈 Progress: |"; progress_bar filled; "| "; shown; "%"]))
   else Ret tt);;
  print (Msg (rule 80));;
  print (Msg "Press Ctrl+C to stop monitoring");;
  if eq0 pending && eq0 crawling && eq0 queue_processing then
    print (Msg (fstr [nl; "🎉 **CRAWLING COMPLETED!**"]));;
    print (Msg "📊 Final Results:");;
    s <- lift (format_comma completed);;
    print (Msg (fstr ["  ✅ Successful: "; s; " domains"]));;
    s <- lift (format_comma failed);;
    print (Msg (fstr ["  ❌ Failed: "; s; " domains"]));;
    s <- lift (format_comma emails_sent);;
    print (Msg (fstr ["  📧 Emails sent: "; s]));;
    print (Msg (fstr ["  ⏰ Total time: "; runtime; " minutes"]));;
    Ret Completed
  else Ret (Pending completed).

Definition monitor_poll (self : crawler) (check_interval : Z) (start_time : pyfloat)
    (last_completed : json) : prog poll_result :=
  stats <- get_stats self;;
  monitor_dashboard check_interval start_time last_completed (fst stats) (snd stats).

(** How an iteration leaves the [while True]. *)
Inductive loop_step : Type :=
| Break
| Continue (last_completed : json).

(** The two [except] clauses of lines 208-213. *)
Definition monitor_except (check_interval : Z) (last_completed : json) (e : exn)
  : prog loop_step :=
  if is_Exception e then
    print (MsgExn "❌ Error during monitoring: " e);;
    time_sleep (PInt check_interval);;
    Ret (Continue last_completed)
  else
    print (Msg (fstr [nl; "⏹️  Monitoring stopped by user"]));;
    Ret Break.

(** One turn of the loop.  The assignment [last_completed = completed] of
    line 205 stands between the completion check and the pause of line 206:
    the [try] block is run in two parts under the same [except] clauses, the
    second part seeing the new value. *)
Definition monitor_iteration (self : crawler) (check_interval : Z)
    (start_time : pyfloat) (last_completed : json) : prog loop_step :=
  r <- try_except
         (p <- monitor_poll self check_interval start_time last_completed;; Ret (inl p))
         (fun e => s <- monitor_except check_interval last_completed e;; Ret (inr s));;
  match r with
  | inr s => Ret s
  | inl Completed => Ret Break
  | inl (Pending completed) =>
      try_except
        (time_sleep (PInt check_interval);; Ret (Continue completed))
        (monitor_except check_interval completed)
  end.

(** [while True], for at most [fuel] turns; [None] when these did not
    reach a [break]. *)
Fixpoint monitor_loop (fuel : nat) (self : crawler) (check_interval : Z)
    (start_time : pyfloat) (last_completed : json) : prog (option unit) :=
  match fuel with
  | O => Ret None
  | S fuel' =>
      step <- monitor_iteration self check_interval start_time last_completed;;
      match step with
      | Break => Ret (Some tt)
      | Continue completed => monitor_loop fuel' self check_interval start_time completed
      end
  end.

Definition monitor_progress (fuel : nat) (self : crawler) (check_interval : Z)
  : prog (option unit) :=
  print (Msg (fstr ["📊 Starting monitoring (checking every "; str_int check_interval;
                    " seconds)..."]));;
  print (Msg "📈 Progress Dashboard:");;
  print (Msg (rule 80));;
  start_time <- time_time;;
  monitor_loop fuel self check_interval start_time (JInt 0).

(** *** [export_results] *)

Definition export_url (self : crawler) : string :=
  fstr [api_base self; "/domains/export"].

Definition export_results (self : crawler) (output_file : string) : prog unit :=
  print (Msg (fstr ["📤 Exporting results to "; output_file; "..."]));;
  response <- requests_get (export_url self);;
  if (status_code response =? 200)%Z then
    perform (EOpenWrite output_file);;
    perform (EWrite output_file (text response));;
    print (Msg (fstr ["✅ Results exported to "; output_file]))
  else
    print (Msg (fstr ["❌ HTTP Error "; str_int (status_code response);
                      " exporting results"])).

(** *** [main] *)

Record Args : Type := mkArgs {
  csv_file : string;
  arg_base_url : string;
  max_concurrent : Z;
  monitor_interval : Z;
  no_monitor : bool
}.

(** The exit status; [None] when the monitor loop outlasts [fuel]. *)
Definition main (fuel : nat) (args : Args) : prog (option Z) :=
  let crawler := init (arg_base_url args) in
  print (Msg "🚀 **BULK DOMAIN CRAWLER** 🚀");;
  print (Msg (rule 50));;
  imported <- import_domains_from_csv crawler (csv_file args);;
  if negb imported then
    print (Msg "❌ Failed to import domains. Exiting.");;
    Ret (Some 1%Z)
  else
    batch_id <- start_bulk_crawl crawler (max_concurrent args);;
    if negb (truthy batch_id) then
      print (Msg "❌ Failed to start bulk crawl. Exiting.");;
      Ret (Some 1%Z)
    else if negb (no_monitor args) then
      monitored <- monitor_progress fuel crawler (monitor_interval args);;
      match monitored with
      | None => Ret None
      | Some _ =>
          now <- time_time;;
          stamp <- lift (int_of_float now);;
          export_results crawler (fstr ["crawl_results_"; str_int stamp; ".csv"]);;
          print (Msg "🎉 Bulk crawling process completed!");;
          Ret (Some 0%Z)
      end
    else
      print (Msg "✅ Bulk crawl started successfully!");;
      print (Msg "💡 Use --monitor-interval to track progress, or check the web dashboard");;
      print (Msg "🎉 Bulk crawling process completed!");;
      Ret (Some 0%Z).

End BulkCrawler.

(** ** A scripted environment

    Answers read from lists, for running the methods on concrete inputs:
    each HTTP call takes the next response, each pause the next pause
    answer and each [print] the next print answer (past the end of its list
    a pause simply elapses and a line is printed), the clock shows the next
    reading of [clock] and then [now], and file writes succeed. *)

Module Script.
Import Py IO.

Record world : Type := mkWorld {
  responses : list (answer Response);
  pauses : list (answer unit);
  prints : list (answer unit);
  clock : list pyfloat;
  csv : answer (list csv_row);
  now : pyfloat
}.

Definition next_response (w : world) : answer Response * world :=
  match responses w with
  | r :: rest =>
      (r, {| responses := rest; pauses := pauses w; prints := prints w;
             clock := clock w; csv := csv w; now := now w |})
  | [] => (Raise (Exception RequestException), w)
  end.

Definition next_pause (w : world) : answer unit * world :=
  match pauses w with
  | r :: rest =>
      (r, {| responses := responses w; pauses := rest; prints := prints w;
             clock := clock w; csv := csv w; now := now w |})
  | [] => (Ok tt, w)
  end.

Definition next_print (w : world) : answer unit * world :=
  match prints w with
  | r :: rest =>
      (r, {| responses := responses w; pauses := pauses w; prints := rest;
             clock := clock w; csv := csv w; now := now w |})
  | [] => (Ok tt, w)
  end.

Definition next_time (w : world) : answer pyfloat * world :=
  match clock w with
  | t :: rest =>
      (Ok t, {| responses := responses w; pauses := pauses w; prints := prints w;
                clock := rest; csv := csv w; now := now w |})
  | [] => (Ok (now w), w)
  end.

Definition scripted : handler world :=
  fun X ev =>
    match ev in event X return world -> answer X * world with
    | EPrint _ => next_print
    | EPost _ _ => next_response
    | EGet _ => next_response
    | ESleep _ => next_pause
    | ETime => next_time
    | EReadCsv _ => fun w => (csv w, w)
    | EOpenWrite _ => fun w => (Ok tt, w)
    | EWrite _ _ => fun w => (Ok tt, w)
    end.

Definition json_response (status : Z) (body : json) : Response :=
  {| status_code := status; content := EmptyString; text := EmptyString;
     json_body := Some body |}.

Definition text_response (status : Z) (body : string) : Response :=
  {| status_code := status; content := body; text := body; json_body := None |}.

(** *** Inputs used as examples *)

Local Open Scope string_scope.

Definition local_crawler : BulkCrawler.crawler := BulkCrawler.init "http://localhost:3000".

Definition example_row : csv_row :=
  [("domain", Some "example.com"); ("webmaster_email", Some "admin@example.com")].

Definition example_domain : BulkCrawler.DomainRecord :=
  BulkCrawler.mkDomain (Some "example.com") (Some "admin@example.com") 5.

Definition success_body : json := JDict [("success", JBool true)].

Definition midnight : pyfloat := S754_zero false.

(** 250 rows, and a service that accepts every import call. *)
Definition world_250 : world :=
  {| responses := repeat (Ok (json_response 200 success_body)) 3;
     pauses := [];
     prints := [];
     clock := [];
     csv := Ok (repeat example_row 250);
     now := midnight |}.

(** 250 rows, and a service that accepts the first import call and
    answers the second one [500]. *)
Definition world_250_refused : world :=
  {| responses := [Ok (json_response 200 success_body);
                   Ok (text_response 500 "Internal Server Error");
                   Ok (json_response 200 success_body)];
     pauses := [];
     prints := [];
     clock := [];
     csv := Ok (repeat example_row 250);
     now := midnight |}.

(** 250 rows, and a service that answers the first import call [500]. *)
Definition world_250_down : world :=
  {| responses := [Ok (text_response 500 "Internal Server Error");
                   Ok (json_response 200 success_body);
                   Ok (json_response 200 success_body)];
     pauses := [];
     prints := [];
     clock := [];
     csv := Ok (repeat example_row 250);
     now := midnight |}.

(** One row, and a service that answers the import call [201 Created]
    with a true [success] flag. *)
Definition created_response : Response := json_response 201 success_body.

Definition world_created : world :=
  {| responses := [Ok created_response];
     pauses := [];
     prints := [];
     clock := [];
     csv := Ok [example_row];
     now := midnight |}.

(** One row, and a service that answers the import call [200] with a JSON
    object that has no [success] flag. *)
Definition flagless_response : Response := json_response 200 (JDict []).

Definition world_flagless : world :=
  {| responses := [Ok flagless_response];
     pauses := [];
     prints := [];
     clock := [];
     csv := Ok [example_row];
     now := midnight |}.

(** One row whose [max_pages] cell is empty. *)
Definition blank_row : csv_row :=
  [("domain", Some "example.com"); ("webmaster_email", Some "admin@example.com");
   ("max_pages", Some "")].

Definition world_blank : world :=
  {| responses := [Ok (json_response 200 success_body)];
     pauses := [];
     prints := [];
     clock := [];
     csv := Ok [blank_row];
     now := midnight |}.

(** An export answered [200] with two CSV lines. *)
Definition export_text : string :=
  String.concat (String "010"%char EmptyString)
    ["domain,status"; "example.com,completed"; ""].

Definition world_export : world :=
  {| responses := [Ok (text_response 200 export_text)];
     pauses := [];
     prints := [];
     clock := [];
     csv := Ok [];
     now := midnight |}.

(** An export answered [203 Non-Authoritative Information] with the same
    body. *)
Definition world_export_203 : world :=
  {| responses := [Ok (text_response 203 export_text)];
     pauses := [];
     prints := [];
     clock := [];
     csv := Ok [];
     now := midnight |}.

(** An export whose body is the single byte 233, the letter e with an acute
    accent in ISO 8859-1, as the response's headers declare: [response.text]
    is that letter, two bytes in the UTF-8 representation of strings. *)
Definition latin1_body : string := String (ascii_of_nat 233) EmptyString.

Definition latin1_response : Response :=
  {| status_code := 200; content := latin1_body; text := "é"; json_body := None |}.

Definition world_export_latin1 : world :=
  {| responses := [Ok latin1_response];
     pauses := [];
     prints := [];
     clock := [];
     csv := Ok [];
     now := midnight |}.

(** Statistics: the domain call answered [200] with counters, the queue
    call answered [503]. *)
Definition domain_counters : json :=
  JDict [("totalDomains", JInt 200); ("completedDomains", JInt 50);
         ("pendingDomains", JInt 150)].

Definition stats_response (counters : json) : Response :=
  json_response 200 (JDict [("success", JBool true); ("data", counters)]).

Definition world_queue_503 : world :=
  {| responses := [Ok (stats_response domain_counters);
                   Ok (text_response 503 "Service Unavailable")];
     pauses := [];
     prints := [];
     clock := [];
     csv := Ok [];
     now := midnight |}.

(** Statistics: the domain call answered [200] with counters, the queue
    call fails with a connection error. *)
Definition world_queue_down : world :=
  {| responses := [Ok (stats_response domain_counters);
                   Raise (Exception RequestException)];
     pauses := [];
     prints := [];
     clock := [];
     csv := Ok [];
     now := midnight |}.

(** The float of a whole number of seconds. *)
Definition seconds (z : Z) : pyfloat := binary_normalize prec emax z 0 false.

(** Statistics of a finished crawl: nothing pending, crawling or being
    processed; three domains failed and seven jobs still wait in the queue. *)
Definition done_counters : json :=
  JDict [("totalDomains", JInt 200); ("completedDomains", JInt 197);
         ("failedDomains", JInt 3); ("crawlingDomains", JInt 0);
         ("pendingDomains", JInt 0); ("emailsSent", JInt 197)].

Definition done_queue : json :=
  JDict [("pending", JInt 7); ("processing", JInt 0);
         ("completed", JInt 400); ("failed", JInt 3)].

Definition world_done : world :=
  {| responses := [Ok (stats_response done_counters); Ok (stats_response done_queue)];
     pauses := [];
     prints := [];
     clock := [];
     csv := Ok [];
     now := seconds 90 |}.

(** The statistics of the dashboard example: 50 domains completed out of
    200, and a queue with 50 completed jobs and nothing else. *)
Definition quarter_counters : json :=
  JDict [("completedDomains", JInt 50); ("totalDomains", JInt 200)].

Definition quarter_queue : json :=
  JDict [("pending", JInt 0); ("processing", JInt 0);
         ("completed", JInt 50); ("failed", JInt 0)].

Definition world_quarter : world :=
  {| responses := []; pauses := []; prints := []; clock := []; csv := Ok [];
     now := seconds 90 |}.

(** Both statistics calls answered [503]. *)
Definition world_stats_down : world :=
  {| responses := [Ok (text_response 503 "Service Unavailable");
                   Ok (text_response 503 "Service Unavailable")];
     pauses := [];
     prints := [];
     clock := [];
     csv := Ok [];
     now := seconds 90 |}.

(** The domain statistics answered with [data: null], and the operator's
    interrupt arriving during the first pause. *)
Definition world_null_stats : world :=
  {| responses := [Ok (stats_response JNull); Ok (stats_response done_queue)];
     pauses := [Raise KeyboardInterrupt];
     prints := [];
     clock := [];
     csv := Ok [];
     now := seconds 90 |}.

Definition started_body : json :=
  JDict [("success", JBool true); ("data", JDict [("batchId", JStr "batch-1")])].

(** The crawl start answered [200] with a batch id. *)
Definition world_started : world :=
  {| responses := [Ok (json_response 200 started_body)];
     pauses := [];
     prints := [];
     clock := [];
     csv := Ok [];
     now := midnight |}.

(** A whole run: one row imported, the crawl started, then the statistics
    and the interrupt of [world_null_stats]. *)
Definition world_run_interrupted : world :=
  {| responses := [Ok (json_response 200 success_body);
                   Ok (json_response 200 started_body);
                   Ok (stats_response JNull);
                   Ok (stats_response done_queue)];
     pauses := [Ok tt; Raise KeyboardInterrupt];
     prints := [];
     clock := [];
     csv := Ok [example_row];
     now := seconds 90 |}.

Definition default_args : BulkCrawler.Args :=
  BulkCrawler.mkArgs "domains.csv" "http://localhost:3000" 10 30 false.

End Script.


(** ** Vocabulary of the properties *)

Module Spec.
Import Py IO BulkCrawler.
Local Open Scope string_scope.

(** The flag [success] of a JSON object, [None] when there is none. *)
Definition success_flag (r : Response) : option json :=
  match json_body r with
  | Some (JDict d) => lookup "success" d
  | _ => None
  end.

(** A 2xx status. *)
Definition is_2xx (status : Z) : bool := ((200 <=? status) && (status <? 300))%Z.

(** An import call that succeeded, as the specification words it: a 2xx
    status, and no [success] flag that is explicitly false. *)
Definition spec_indicates_success (r : Response) : bool :=
  is_2xx (status_code r) &&
  negb (match success_flag r with
        | Some (JBool false) => true
        | _ => false
        end).

(** An import call the importer takes as a success: answered with status
    200 and a JSON object whose [success] flag is truthy. *)
Definition call_accepted (a : answer Response) : bool :=
  match a with
  | Ok r =>
      (status_code r =? 200)%Z &&
      match success_flag r with
      | Some v => truthy v
      | None => false
      end
  | Raise _ => false
  end.

(** An import call the importer takes as a failure: answered with another
    status, or with status 200 and a JSON object whose [success] flag is
    missing or falsy. *)
Definition call_refused (a : answer Response) : bool :=
  match a with
  | Ok r =>
      if (status_code r =? 200)%Z then
        match json_body r with
        | Some (JDict d) =>
            match lookup "success" d with
            | Some v => negb (truthy v)
            | None => true
            end
        | _ => false
        end
      else true
  | Raise _ => false
  end.

(** The nested crawl parameters, as the specification lists them. *)
Definition fixed_crawl_parameters : json :=
  JDict [("maxPages", JInt 5);
         ("maxDepth", JInt 3);
         ("politenessDelay", JInt 1000);
         ("respectRobotsTxt", JBool true);
         ("restrictToSeedDomain", JBool true);
         ("requestTimeout", JInt 30000)].

(** Every [print] of the trace was answered. *)
Definition prints_answered (t : trace) : bool :=
  forallb (fun en => match line_of en with
                     | Some _ => answered en
                     | None => true
                     end) t.

(** The completion test of the monitor on the polled statistics:
    [pending == 0 and crawling == 0 and queue_processing == 0]. *)
Definition idle (domain_stats queue_stats : json) : bool :=
  match counter domain_stats "pendingDomains",
        counter domain_stats "crawlingDomains",
        counter queue_stats "processing" with
  | Ok pending, Ok crawling, Ok processing =>
      eq0 pending && eq0 crawling && eq0 processing
  | _, _, _ => false
  end.

Definition completed_line : message := Msg (fstr [nl; "🎉 **CRAWLING COMPLETED!**"]).
Definition stopped_line : message := Msg (fstr [nl; "⏹️  Monitoring stopped by user"]).

(** The line of the [except Exception] clause of the monitor. *)
Definition is_monitor_error (m : message) : bool :=
  match m with
  | MsgExn s _ => String.eqb s "❌ Error during monitoring: "
  | _ => false
  end.

Definition error_reported (t : trace) : bool := existsb is_monitor_error (printed t).

(** What every run of the dashboard on the statistics [d] and [q] satisfies:
    it prints no error line of the monitor; it ends with [Completed] only
    when the completion test holds, having printed the completion line, and
    with [Pending] only when the test fails; it raises the operator's
    interrupt only when the environment delivered one. *)
Definition dashboard_post (d q : json) (res : answer poll_result) (t : trace) : Prop :=
  error_reported t = false /\
  match res with
  | Ok Completed => idle d q = true /\ In completed_line (printed t)
  | Ok (Pending c) => idle d q = false /\ counter d "completedDomains" = Ok c
  | Raise KeyboardInterrupt => existsb interrupted t = true
  | Raise (Exception _) => True
  end.

(** A turn of the monitor loop from the point where [get_stats] has
    returned [stats]. *)
Definition iteration_after (check_interval : Z) (start_time : pyfloat)
    (last_completed : json) (stats : json * json) : prog loop_step :=
  (r <- try_except
          (p <- monitor_dashboard check_interval start_time last_completed
                  (fst stats) (snd stats);;
           Ret (inl p))
          (fun e => s <- monitor_except check_interval last_completed e;; Ret (inr s));;
   match r with
   | inr s => Ret s
   | inl Completed => Ret Break
   | inl (Pending completed) =>
       try_except
         (time_sleep (PInt check_interval);; Ret (Continue completed))
         (monitor_except check_interval completed)
   end)%prog.

(** What every run of an [except] clause of the monitor satisfies: the
    clause for [Exception] prints the error line and never breaks the loop;
    the clause for the interrupt prints the farewell. *)
Definition except_post (e : exn) (res : answer loop_step) (t : trace) : Prop :=
  (is_Exception e = true -> error_reported t = true /\ res <> Ok Break) /\
  (is_Exception e = false -> In stopped_line (printed t)).

(** What every run of a turn satisfies, from the statistics on: it breaks
    the loop without an interrupt only when the completion test holds,
    having printed the completion line; when every effect was answered and no
    error line was printed, it breaks the loop if the test holds and goes on
    to the next turn, with the new completed count, if not; an exception
    leaves it only from inside an [except] clause. *)
Definition iteration_post (d q : json) (res : answer loop_step) (t : trace) : Prop :=
  (res = Ok Break -> existsb interrupted t = false ->
   idle d q = true /\ In completed_line (printed t)) /\
  (forallb answered t = true -> error_reported t = false ->
   (idle d q = true -> res = Ok Break) /\
   (idle d q = false ->
    exists c, counter d "completedDomains" = Ok c /\ res = Ok (Continue c))) /\
  (forall e, res = Raise e ->
             error_reported t = true \/ In stopped_line (printed t)).

(** The batches the import loop visits. *)
Definition batches (domains : list DomainRecord) : list (list DomainRecord) :=
  map (fun i => py_slice domains i (i + batch_size))
      (py_range 0 (List.length domains) batch_size).

(** The batch that starts at index [i]. *)
Definition slice_of (domains : list DomainRecord) (i : nat) : list DomainRecord :=
  py_slice domains i (i + batch_size).

(** One import call and the pause after it. *)
Definition import_round (self : crawler) (batch : list DomainRecord) : list action :=
  [APost (import_url self) (import_body batch); ASleep half_second].

(** The calls and pauses of an import in which no call fails. *)
Definition import_plan (self : crawler) (domains : list DomainRecord) : list action :=
  flat_map (import_round self) (batches domains).

(** The rows a trace read from the CSV file. *)
Definition rows_of (en : entry) : option (list csv_row) :=
  match en with
  | Entry ev r =>
      match ev in event X return answer X -> option (list csv_row) with
      | EReadCsv _ => fun r => match r with Ok rows => Some rows | Raise _ => None end
      | _ => fun _ => None
      end r
  end.

Fixpoint rows_read (t : trace) : option (list csv_row) :=
  match t with
  | [] => None
  | en :: rest =>
      match rows_of en with
      | Some rows => Some rows
      | None => rows_read rest
      end
  end.

(** The calls and pauses of the loop over [indices] when no call fails. *)
Definition plan_of (self : crawler) (domains : list DomainRecord) (indices : list nat)
  : list action :=
  flat_map (fun i => import_round self (slice_of domains i)) indices.

(** What every run of the import loop over [indices] satisfies: its calls
    and pauses are the first ones of the plan; it returns [True] exactly when
    every effect was answered and every call accepted, and then the whole plan
    was carried out; it returns [False] exactly when every effect was answered
    and the last call was refused; every call but the last was accepted. *)
Definition import_inv (self : crawler) (domains : list DomainRecord)
    (indices : list nat) (res : answer bool) (t : trace) : Prop :=
  let calls := map snd (posts t) in
  (exists k, actions t = firstn k (plan_of self domains indices)) /\
  (res = Ok true <->
   forallb answered t = true /\ forallb call_accepted calls = true) /\
  (res = Ok true -> actions t = plan_of self domains indices) /\
  (res = Ok false <->
   forallb answered t = true /\
   exists l c, calls = (l ++ [c])%list /\ call_refused c = true) /\
  forallb call_accepted (removelast calls) = true.

(** *** Rows and chunks *)

(** A cell on which the model of [int] is exact for every interpreter:
    ASCII characters only, and at most 4300 of them (newer interpreters refuse
    longer numerals; non-ASCII digits and spaces are not modelled). *)
Definition plain_cell (s : string) : bool :=
  (String.length s <=? 4300)%nat &&
  forallb (fun c => (nat_of_ascii c <? 128)%nat) (list_ascii_of_string s).

(** A valid row: both required columns are there, and the [max_pages]
    column is absent or holds a plain cell that [int] accepts. *)
Definition valid_row (row : csv_row) : bool :=
  match lookup "domain" row, lookup "webmaster_email" row with
  | Some _, Some _ =>
      match lookup "max_pages" row with
      | None => true
      | Some (Some s) => plain_cell s && is_ok (int_of_str s)
      | Some None => false
      end
  | _, _ => false
  end.

(** The record of a row: its two cells, and the number in its [max_pages]
    cell, or 5 when there is no such column. *)
Definition row_record (row : csv_row) (d : DomainRecord) : Prop :=
  lookup "domain" row = Some (domain d) /\
  lookup "webmaster_email" row = Some (webmasterEmail d) /\
  match lookup "max_pages" row with
  | None => maxPages d = 5%Z
  | Some (Some s) => int_of_str s = Ok (maxPages d)
  | Some None => False
  end.

(** Consecutive chunks of at most [n] elements, in order. *)
Fixpoint chunks_of {A} (fuel n : nat) (l : list A) : list (list A) :=
  match fuel with
  | O => []
  | S fuel' =>
      match l with
      | [] => []
      | _ :: _ => firstn n l :: chunks_of fuel' n (skipn n l)
      end
  end.

Definition chunks {A} (n : nat) (l : list A) : list (list A) :=
  chunks_of (List.length l) n l.

(** The JSON object an import call is expected to carry for a chunk. *)
Definition expected_record (d : DomainRecord) : json :=
  JDict [("domain", match domain d with Some s => JStr s | None => JNull end);
         ("webmasterEmail",
          match webmasterEmail d with Some s => JStr s | None => JNull end);
         ("maxPages", JInt (maxPages d))].

Definition expected_body (chunk : list DomainRecord) : json :=
  JDict [("domains", JList (map expected_record chunk))].

(** The import call of a chunk and the pause of half a second after it. *)
Definition expected_round (self : crawler) (chunk : list DomainRecord) : list action :=
  [APost (import_url self) (expected_body chunk); ASleep (PFloat float_half)].

Definition expected_plan (self : crawler) (parts : list (list DomainRecord))
  : list action :=
  flat_map (expected_round self) parts.

(** The request body the crawl start is expected to carry. *)
Definition expected_crawl_body (max_concurrent : Z) : json :=
  JDict [("maxConcurrent", JInt max_concurrent);
         ("emailNotifications", JBool true);
         ("crawlConfig", fixed_crawl_parameters)].

(** *** Lines of the dashboard *)

Definition line_starts (prefix : string) (m : message) : bool :=
  match m with
  | Msg s => String.prefix prefix s
  | _ => false
  end.

(** The line of line 166 and the line of the bar, line 190. *)
Definition is_progress_line : message -> bool := line_starts "📊 Progress: ".
Definition is_bar_line : message -> bool := line_starts "📈 Progress: |".

Definition quarter_progress_line : message := Msg "📊 Progress: 50/200 domains (25.0%)".

(** Twelve filled cells and thirty-eight empty ones. *)
Definition quarter_bar : string := fstr [str_repeat "█" 12; str_repeat "-" 38].

Definition quarter_bar_line : message :=
  Msg (fstr ["📈 Progress: |"; quarter_bar; "| 25.0%"]).

End Spec.
(** ** Reasoning about programs *)

Module Logic.
Import Py IO BulkCrawler Spec.
Local Open Scope string_scope.
Local Open Scope list_scope.

Lemma wp_run {A} (p : prog A) :
  forall (Q : answer A -> trace -> Prop), wp p Q ->
  forall S (h : handler S) (s : S),
    Q (outcome (run h p s)) (events (run h p s)).
Proof.
  induction p as [a | e | X ev k IH]; intros Q Hwp S h s.
  - exact Hwp.
  - exact Hwp.
  - cbn [run]. destruct (h X ev s) as [r s1].
    specialize (IH r _ (Hwp r) S h s1).
    destruct (run h (k r) s1) as [[res s2] t]. exact IH.
Qed.

Lemma wp_mono {A} (p : prog A) :
  forall (Q Q' : answer A -> trace -> Prop),
    (forall res t, Q res t -> Q' res t) -> wp p Q -> wp p Q'.
Proof.
  induction p as [a | e | X ev k IH]; intros Q Q' HQ Hwp; cbn [wp] in *; auto.
  intro r. eapply IH; [| apply Hwp]. cbn beta. auto.
Qed.

Lemma wp_bind {A B} (p : prog A) (f : A -> prog B) :
  forall (Q : answer B -> trace -> Prop),
    wp p (fun res t =>
            match res with
            | Ok a => wp (f a) (fun res' t' => Q res' (t ++ t'))
            | Raise e => Q (Raise e) t
            end) ->
    wp (bind p f) Q.
Proof.
  induction p as [a | e | X ev k IH]; intros Q Hwp; cbn [wp bind] in *.
  - eapply wp_mono; [| exact Hwp]. auto.
  - exact Hwp.
  - intro r. apply IH. eapply wp_mono; [| apply Hwp].
    intros [a | e] t; cbn beta iota; auto.
Qed.

Lemma wp_any {A} (p : prog A) :
  forall (Q : answer A -> trace -> Prop), (forall res t, Q res t) -> wp p Q.
Proof.
  induction p as [a | e | X ev k IH]; intros Q HQ; cbn [wp]; auto.
Qed.

Lemma wp_try_except {A} (p : prog A) (hd : exn -> prog A) :
  forall (Q : answer A -> trace -> Prop),
    wp p (fun res t =>
            match res with
            | Ok a => Q (Ok a) t
            | Raise e => wp (hd e) (fun res' t' => Q res' (t ++ t'))
            end) ->
    wp (try_except p hd) Q.
Proof.
  induction p as [a | e | X ev k IH]; intros Q Hwp; cbn [wp try_except] in *.
  - exact Hwp.
  - eapply wp_mono; [| exact Hwp]. auto.
  - intro r. apply IH. eapply wp_mono; [| apply Hwp].
    intros [a | e] t; cbn beta iota; auto.
Qed.

Lemma run_bind {S A B} (h : handler S) (p : prog A) (f : A -> prog B) :
  forall s,
    run h (bind p f) s =
    match run h p s with
    | (Ok a, s1, t1) =>
        let '(r, s2, t2) := run h (f a) s1 in (r, s2, t1 ++ t2)
    | (Raise e, s1, t1) => (Raise e, s1, t1)
    end.
Proof.
  induction p as [a | e | X ev k IH]; intro s; cbn [run bind].
  - destruct (run h (f a) s) as [[r s2] t2]. reflexivity.
  - reflexivity.
  - destruct (h X ev s) as [r s1]. rewrite IH.
    destruct (run h (k r) s1) as [[[a | e] s2] t1].
    + destruct (run h (f a) s2) as [[r' s3] t2]. reflexivity.
    + reflexivity.
Qed.

Lemma run_try_except {S A} (h : handler S) (p : prog A) (hd : exn -> prog A) :
  forall s,
    run h (try_except p hd) s =
    match run h p s with
    | (Ok a, s1, t1) => (Ok a, s1, t1)
    | (Raise e, s1, t1) =>
        let '(r, s2, t2) := run h (hd e) s1 in (r, s2, t1 ++ t2)
    end.
Proof.
  induction p as [a | e | X ev k IH]; intro s; cbn [run try_except].
  - reflexivity.
  - destruct (run h (hd e) s) as [[r s2] t2]. reflexivity.
  - destruct (h X ev s) as [r s1]. rewrite IH.
    destruct (run h (k r) s1) as [[[a | e] s2] t1].
    + reflexivity.
    + destruct (run h (hd e) s2) as [[r' s3] t2]. reflexivity.
Qed.

Lemma posts_app (t1 t2 : trace) : posts (t1 ++ t2) = posts t1 ++ posts t2.
Proof.
  induction t1 as [| en t1 IH]; cbn [posts app]; [reflexivity |].
  destruct (post_of en); rewrite IH; reflexivity.
Qed.

Lemma actions_app (t1 t2 : trace) : actions (t1 ++ t2) = actions t1 ++ actions t2.
Proof.
  induction t1 as [| en t1 IH]; cbn [actions app]; [reflexivity |].
  destruct (action_of en); rewrite IH; reflexivity.
Qed.

Lemma printed_app (t1 t2 : trace) : printed (t1 ++ t2) = printed t1 ++ printed t2.
Proof.
  induction t1 as [| en t1 IH]; cbn [printed app]; [reflexivity |].
  destruct (line_of en); rewrite IH; reflexivity.
Qed.

(** *** Stepping through a program *)

(** An expression is evaluated when its head can be, and taken by cases
    otherwise. *)
Ltac has_variable R :=
  match R with
  | context [?x] => is_var x
  end.

Ltac settle R :=
  tryif has_variable R then
    (let v := eval hnf in R in
     lazymatch v with
     | Ok ?a => change R with v; generalize a; intro
     | Raise _ => change R with v
     | _ => destruct R eqn:?
     end)
  else
    (let v := eval vm_compute in R in
     replace R with v by (vm_compute; reflexivity)).

Ltac decide_test c :=
  let v := eval hnf in c in
  lazymatch v with
  | true => change c with true; cbv iota
  | false => change c with false; cbv iota
  | _ => destruct c eqn:?
  end.

Ltac wp_step :=
  cbn [bind wp lift resume try_except is_Exception];
  match goal with
  | |- wp (if is_Exception ?e then _ else _) _ => is_var e; destruct e; cbn [is_Exception]
  | |- forall r : answer unit, _ => intros [[]|?]
  | |- forall r : answer _, _ => intros [?|?]
  | |- wp (bind (lift ?R) _) _ => settle R
  | |- wp (try_except (bind (lift ?R) _) _) _ => settle R
  | |- wp (bind (bind (lift ?R) _) _) _ => settle R
  | |- wp (if ?c then _ else _) _ => decide_test c
  | |- wp (bind (if ?c then _ else _) _) _ => decide_test c
  end.

Ltac trace_simpl :=
  cbn [gets get_of posts post_of actions action_of file_ops file_op_of printed line_of
       forallb existsb answered interrupted prints_answered is_monitor_error
       is_ok map snd fst In app andb orb].

Lemma time_sleep_half : time_sleep half_second = perform (ESleep half_second).
Proof. reflexivity. Qed.

Lemma verdict_200 r j v :
  (status_code r =? 200)%Z = true -> response_json r = Ok j ->
  py_get j "success" JNull = Ok v ->
  call_accepted (Ok r) = truthy v /\ call_refused (Ok r) = negb (truthy v).
Proof.
  unfold call_accepted, call_refused, success_flag, response_json, py_get.
  intros -> Hj Hv. destruct (json_body r) as [j' |]; [| discriminate].
  injection Hj as ->. destruct j; try discriminate. injection Hv as <-.
  destruct (lookup "success" d); split; reflexivity.
Qed.

Lemma verdict_other_status r : (status_code r =? 200)%Z = false ->
  call_accepted (Ok r) = false /\ call_refused (Ok r) = true.
Proof. unfold call_accepted, call_refused. intros ->. split; reflexivity. Qed.

Lemma verdict_not_json r e :
  (status_code r =? 200)%Z = true -> response_json r = Raise e ->
  call_accepted (Ok r) = false /\ call_refused (Ok r) = false.
Proof.
  unfold call_accepted, call_refused, success_flag, response_json.
  intros -> Hj. destruct (json_body r); [discriminate |]. split; reflexivity.
Qed.

Lemma verdict_not_object r j e :
  (status_code r =? 200)%Z = true -> response_json r = Ok j ->
  py_get j "success" JNull = Raise e ->
  call_accepted (Ok r) = false /\ call_refused (Ok r) = false.
Proof.
  unfold call_accepted, call_refused, success_flag, response_json, py_get.
  intros -> Hj Hv. destruct (json_body r) as [j' |]; [| discriminate].
  injection Hj as ->. destruct j; try discriminate; split; reflexivity.
Qed.

Lemma py_get_total j k d v k' d' e :
  py_get j k d = Ok v -> py_get j k' d' = Raise e -> False.
Proof. destruct j; cbn; discriminate. Qed.

Lemma one_is_snoc {A} (x : A) l c : [x] = l ++ [c] -> l = [] /\ c = x.
Proof.
  destruct l as [| y l]; cbn; intro H.
  - injection H as ->. auto.
  - injection H as _ H. destruct l; discriminate.
Qed.

Lemma nil_not_snoc {A} (l : list A) c : [] = l ++ [c] -> False.
Proof. destruct l; discriminate. Qed.

Ltac verdict :=
  match goal with
  | Hs : (status_code ?r =? 200)%Z = true, Hj : response_json ?r = Ok ?j,
    Hv : py_get ?j _ _ = Ok ?v, Ht : truthy ?v = _ |- _ =>
      let Ha := fresh "Hacc" in let Hr := fresh "Href" in
      destruct (verdict_200 r j v Hs Hj Hv) as [Ha Hr]; rewrite Ht in Ha, Hr
  | Hs : (status_code ?r =? 200)%Z = true, Hj : response_json ?r = Ok ?j,
    Hv : py_get ?j _ _ = Raise _ |- _ =>
      let Ha := fresh "Hacc" in let Hr := fresh "Href" in
      destruct (verdict_not_object r j _ Hs Hj Hv) as [Ha Hr]
  | Hs : (status_code ?r =? 200)%Z = true, Hj : response_json ?r = Raise _ |- _ =>
      let Ha := fresh "Hacc" in let Hr := fresh "Href" in
      destruct (verdict_not_json r _ Hs Hj) as [Ha Hr]
  | Hs : (status_code ?r =? 200)%Z = false |- _ =>
      let Ha := fresh "Hacc" in let Hr := fresh "Href" in
      destruct (verdict_other_status r Hs) as [Ha Hr]
  | _ => idtac
  end.

Ltac use_verdict :=
  repeat match goal with
  | H : call_accepted ?a = _ |- context [call_accepted ?a] => rewrite H
  | H : call_refused ?a = _ |- context [call_refused ?a] => rewrite H
  end.

Ltac refute_refused :=
  match goal with
  | Hr : call_refused ?a = _, Hc : call_refused ?a = true |- _ =>
      rewrite Hr in Hc; discriminate
  | Hc : call_refused (Raise _) = true |- _ => discriminate Hc
  end.

Ltac import_leaf :=
  cbn [bind wp lift resume]; verdict; unfold import_inv; trace_simpl;
  cbn [removelast plan_of flat_map import_round app];
  use_verdict; cbn [andb forallb negb call_accepted call_refused];
  repeat split;
  try (exists 0%nat; reflexivity); try (exists 1%nat; reflexivity);
  try (exists 2%nat; reflexivity);
  try discriminate; try reflexivity;
  try (intros [? ?]; discriminate);
  try (intros [_ (l & c & H & Hc)];
       first [ apply nil_not_snoc in H; contradiction
             | apply one_is_snoc in H; destruct H as [-> ->]; refute_refused ]);
  try (intros; eexists [], _; split;
       [reflexivity | match goal with H : call_refused _ = _ |- _ => exact H end]).

Lemma import_inv_round self domains i rest res t a line :
  call_accepted (Ok a) = true -> call_refused (Ok a) = false ->
  import_inv self domains rest res t ->
  import_inv self domains (i :: rest) res
    (Entry (EPost (import_url self) (import_body (py_slice domains i (i + batch_size)))) (Ok a)
     :: Entry (EPrint line) (Ok tt) :: Entry (ESleep half_second) (Ok tt) :: t).
Proof.
  intros Hacc Href (Hpre & Htrue & Hall & Hfalse & Hmid).
  unfold import_inv; trace_simpl.
  cbn [plan_of flat_map import_round app]. fold (plan_of self domains rest).
  rewrite Hacc. cbn [andb]. split; [| split; [| split; [| split]]].
  - destruct Hpre as [k Hk]. exists (S (S k)). cbn [firstn]. rewrite Hk. reflexivity.
  - exact Htrue.
  - intro H. rewrite (Hall H). reflexivity.
  - rewrite Hfalse. apply and_iff_compat_l. split.
    + intros (l & c & Hl & Hc). exists (Ok a :: l), c. rewrite Hl. auto.
    + intros (l & c & Hl & Hc). destruct l as [| x l]; cbn [app] in Hl.
      * injection Hl as <- _. rewrite Href in Hc. discriminate.
      * injection Hl as _ Hl. eauto.
  - destruct (map snd (posts t)) as [| c calls]; [reflexivity |].
    cbn [removelast forallb] in *. rewrite Hacc. exact Hmid.
Qed.

Lemma import_batches_inv self domains : forall idxs n,
  wp (import_batches self domains idxs n) (import_inv self domains idxs).
Proof.
  induction idxs as [| i rest IH]; intro n; cbn [import_batches];
    unfold print, requests_post, perform.
  - repeat wp_step; import_leaf.
  - wp_step; [wp_step; [wp_step; [wp_step; [wp_step |] |] |] |].
    + wp_step; [rewrite time_sleep_half; unfold perform; wp_step |].
      * cbn [bind lift resume]. eapply wp_mono; [| apply IH]. intros res t. verdict.
        apply import_inv_round; assumption.
      * import_leaf.
      * import_leaf.
    + repeat wp_step; try (exfalso; eapply py_get_total; eassumption); import_leaf.
    + repeat wp_step; import_leaf.
    + repeat wp_step; import_leaf.
    + repeat wp_step; import_leaf.
    + repeat wp_step; import_leaf.
Qed.

(** *** The batches of the import loop *)

Section Batches.
Local Open Scope nat_scope.

Lemma slice_of_eq (domains : list DomainRecord) i :
  slice_of domains i = firstn 100 (skipn i domains).
Proof.
  unfold slice_of, py_slice, batch_size. f_equal. lia.
Qed.

Lemma range_from_length n : forall fuel i,
  n - i <= fuel ->
  List.length (range_from fuel i n 100) = ((n - i + 99) / 100)%nat.
Proof.
  induction fuel as [| fuel IH]; intros i Hf; cbn [range_from].
  - cbn [List.length]. assert (n - i = 0) as -> by lia. reflexivity.
  - destruct (Nat.ltb_spec i n) as [Hlt | Hge].
    + cbn [List.length]. rewrite IH by lia.
      assert (Hor : n - i <= 100 \/ 100 < n - i) by lia.
      destruct Hor as [Hs | Hb].
      * assert (n - (i + 100) = 0) as -> by lia.
        rewrite (Nat.div_small (0 + 99)) by lia.
        apply (Nat.div_unique _ _ 1 (n - i - 1)); lia.
      * replace (n - i + 99) with ((n - (i + 100) + 99) + 1 * 100) by lia.
        rewrite Nat.div_add by lia. lia.
    + cbn [List.length]. assert (n - i = 0) as -> by lia. reflexivity.
Qed.

Lemma batches_concat (domains : list DomainRecord) : forall fuel i,
  List.length domains - i <= fuel ->
  List.concat (map (slice_of domains) (range_from fuel i (List.length domains) 100)) = skipn i domains.
Proof.
  induction fuel as [| fuel IH]; intros i Hf; cbn [range_from].
  - cbn [map List.concat]. symmetry. apply skipn_all2. lia.
  - destruct (Nat.ltb_spec i (List.length domains)) as [Hlt | Hge].
    + cbn [map List.concat]. rewrite IH by lia. rewrite slice_of_eq.
      rewrite (Nat.add_comm i 100), <- skipn_skipn. apply firstn_skipn.
    + cbn [map List.concat]. symmetry. apply skipn_all2. lia.
Qed.

Lemma batches_full (domains : list DomainRecord) : forall fuel i,
  Forall (fun b => List.length b = 100)
    (removelast (map (slice_of domains) (range_from fuel i (List.length domains) 100))).
Proof.
  induction fuel as [| fuel IH]; intro i; cbn [range_from].
  - constructor.
  - destruct (Nat.ltb_spec i (List.length domains)) as [Hlt | Hge]; [| constructor].
    cbn [map]. specialize (IH (i + 100)).
    destruct fuel as [| fuel']; [constructor |].
    cbn [range_from] in *.
    destruct (Nat.ltb_spec (i + 100) (List.length domains)) as [Hlt' | Hge']; [| constructor].
    cbn [map removelast] in *. constructor; [| exact IH].
    rewrite slice_of_eq, length_firstn, length_skipn. lia.
Qed.

Lemma batches_bounded (domains : list DomainRecord) indices :
  Forall (fun b => List.length b <= 100) (map (slice_of domains) indices).
Proof.
  induction indices; cbn [map]; constructor; auto.
  rewrite slice_of_eq, length_firstn. lia.
Qed.

Lemma batches_nonempty (domains : list DomainRecord) : forall fuel i,
  Forall (fun b => 0 < List.length b) (map (slice_of domains) (range_from fuel i (List.length domains) 100)).
Proof.
  induction fuel as [| fuel IH]; intro i; cbn [range_from]; [constructor |].
  destruct (Nat.ltb_spec i (List.length domains)); [| constructor].
  cbn [map]. constructor; [| apply IH].
  rewrite slice_of_eq, length_firstn, length_skipn. lia.
Qed.

Lemma plan_of_batches self domains :
  plan_of self domains (py_range 0 (List.length domains) batch_size) = import_plan self domains.
Proof.
  unfold plan_of, import_plan, batches. fold (slice_of domains).
  generalize (py_range 0 (List.length domains) batch_size) as l.
  induction l as [| i l IH]; cbn [flat_map map]; [reflexivity |]. rewrite IH. reflexivity.
Qed.

Lemma read_rows_spec : forall rows acc domains,
  read_rows rows acc = Ok domains ->
  exists parsed, domains = acc ++ parsed /\
    Forall2 (fun row d => domain_of_row row = Ok d) rows parsed.
Proof.
  induction rows as [| row rows IH]; intros acc domains H; cbn [read_rows] in H.
  - injection H as <-. exists []. rewrite app_nil_r. auto.
  - destruct (domain_of_row row) as [d |] eqn:Hd; cbn [rbind] in H; [| discriminate].
    destruct (IH _ _ H) as (parsed & -> & HF). exists (d :: parsed).
    rewrite <- app_assoc. auto.
Qed.

Lemma valid_row_record row :
  valid_row row = true ->
  exists d, domain_of_row row = Ok d /\ row_record row d.
Proof.
  unfold valid_row, domain_of_row, row_record, row_item, row_max_pages.
  destruct (lookup "domain" row) as [dm |]; [| discriminate].
  destruct (lookup "webmaster_email" row) as [em |]; [| discriminate].
  destruct (lookup "max_pages" row) as [[s |] |]; cbn [rbind].
  - intro H. apply andb_true_iff in H. destruct H as [_ H].
    destruct (int_of_str s) as [z |]; [| discriminate].
    eexists. split; [reflexivity |]. cbn. auto.
  - discriminate.
  - intros _. eexists. split; [reflexivity |]. cbn. auto.
Qed.

Lemma valid_rows_parse : forall rows acc,
  forallb valid_row rows = true ->
  exists parsed,
    read_rows rows acc = Ok (acc ++ parsed) /\ Forall2 row_record rows parsed.
Proof.
  induction rows as [| row rows IH]; intros acc H; cbn [read_rows forallb] in *.
  - exists []. rewrite app_nil_r. auto.
  - apply andb_true_iff in H. destruct H as [Hrow Hrows].
    destruct (valid_row_record row Hrow) as (d & -> & Hd). cbn [rbind].
    destruct (IH (acc ++ [d]) Hrows) as (parsed & -> & HF).
    exists (d :: parsed). rewrite <- app_assoc. auto.
Qed.

Lemma batches_chunks (domains : list DomainRecord) : forall fuel i,
  map (slice_of domains) (range_from fuel i (List.length domains) 100) =
  chunks_of fuel 100 (skipn i domains).
Proof.
  induction fuel as [| fuel IH]; intro i; cbn [range_from chunks_of]; [reflexivity |].
  destruct (Nat.ltb_spec i (List.length domains)) as [Hlt | Hge].
  - cbn [map]. rewrite IH, slice_of_eq.
    destruct (skipn i domains) as [| x rest] eqn:Hs.
    + exfalso. apply (f_equal (@List.length _)) in Hs. rewrite length_skipn in Hs.
      cbn in Hs. lia.
    + rewrite <- Hs. rewrite (Nat.add_comm i 100), <- skipn_skipn. reflexivity.
  - rewrite skipn_all2 by lia. reflexivity.
Qed.

Lemma batches_are_chunks (domains : list DomainRecord) :
  batches domains = chunks 100 domains.
Proof.
  change (batches domains)
    with (map (slice_of domains)
              (range_from (List.length domains - 0) 0 (List.length domains) 100)).
  rewrite Nat.sub_0_r, batches_chunks. reflexivity.
Qed.

Lemma expected_plan_batches self domains :
  import_plan self domains = expected_plan self (chunks 100 domains).
Proof.
  unfold import_plan. rewrite batches_are_chunks. reflexivity.
Qed.

Lemma chunks_facts (domains : list DomainRecord) :
  List.length (chunks 100 domains) = (List.length domains + 99) / 100 /\
  List.concat (chunks 100 domains) = domains /\
  Forall (fun b => 0 < List.length b <= 100) (chunks 100 domains) /\
  Forall (fun b => List.length b = 100) (removelast (chunks 100 domains)).
Proof.
  rewrite <- batches_are_chunks.
  change (batches domains)
    with (map (slice_of domains)
              (range_from (List.length domains - 0) 0 (List.length domains) 100)).
  rewrite Nat.sub_0_r. repeat apply conj.
  - rewrite length_map, range_from_length by lia. rewrite Nat.sub_0_r. reflexivity.
  - rewrite batches_concat by lia. reflexivity.
  - pose proof (batches_bounded domains
                  (range_from (List.length domains) 0 (List.length domains) 100)) as Hb.
    pose proof (batches_nonempty domains (List.length domains) 0) as Hn.
    rewrite Forall_forall in *. intros b Hin. split; [apply Hn | apply Hb]; exact Hin.
  - apply batches_full.
Qed.

End Batches.

(** *** The dashboard *)

Ltac use_counters :=
  repeat match goal with
         | H : counter _ _ = _ |- _ => rewrite H
         end.

Ltac dashboard_leaf :=
  cbn [bind wp lift resume]; unfold dashboard_post, error_reported; trace_simpl;
  split; [reflexivity |];
  match goal with
  | |- True => exact I
  | |- match ?e with KeyboardInterrupt => _ | Exception _ => _ end =>
      destruct e; [reflexivity | exact I]
  | |- idle _ _ = true /\ _ =>
      split; [unfold idle; use_counters; assumption
             | unfold completed_line; repeat first [left; reflexivity | right]]
  | |- idle _ _ = false /\ _ =>
      split; [unfold idle; use_counters; assumption | assumption]
  end.

Lemma dashboard_wp ci t0 last d q :
  wp (monitor_dashboard ci t0 last d q) (dashboard_post d q).
Proof.
  unfold monitor_dashboard, print, time_time, perform.
  repeat wp_step.
  all: dashboard_leaf.
Qed.

(** *** A turn of the monitor loop *)

Lemma iteration_run {S} (h : handler S) self ci t0 last s stats s1 t1 :
  run h (get_stats self) s = (Ok stats, s1, t1) ->
  run h (monitor_iteration self ci t0 last) s =
  let '(r, s2, t2) := run h (iteration_after ci t0 last stats) s1 in (r, s2, t1 ++ t2).
Proof.
  intro Hstats. unfold monitor_iteration, iteration_after, monitor_poll.
  rewrite !run_bind, !run_try_except, !run_bind, Hstats.
  destruct (run h (monitor_dashboard ci t0 last (fst stats) (snd stats)) s1)
    as [[[p | e] s2] t2]; cbn [run app].
  - rewrite app_nil_r.
    destruct p as [| c]; cbn [run]; rewrite ?app_nil_r; [reflexivity |].
    destruct (run h (try_except (time_sleep (PInt ci);; Ret (Continue c))%prog
                                (monitor_except ci c)) s2) as [[r s3] t3].
    rewrite app_assoc. reflexivity.
  - rewrite !run_bind.
    destruct (run h (monitor_except ci last e) s2) as [[[st | e'] s3] t3]; cbn [run];
      rewrite ?app_nil_r, ?app_assoc; reflexivity.
Qed.

Lemma time_sleep_cases ci :
  time_sleep (PInt ci) = Throw (Exception ValueError) \/
  time_sleep (PInt ci) = perform (ESleep (PInt ci)).
Proof. unfold time_sleep. destruct (num_gt (PInt 0) (PInt ci)); auto. Qed.

Lemma monitor_except_wp ci last e :
  wp (monitor_except ci last e) (except_post e).
Proof.
  unfold monitor_except, print, perform. destruct e as [| c]; cbn [is_Exception].
  - repeat wp_step; cbn [bind wp lift resume]; unfold except_post, stopped_line;
      cbn [is_Exception]; trace_simpl; split; intros; try discriminate; auto.
  - wp_step.
    + destruct (time_sleep_cases ci) as [-> | ->]; unfold perform;
        repeat wp_step; cbn [bind wp lift resume]; unfold except_post, error_reported;
        cbn [is_Exception]; trace_simpl; split; intros; try discriminate;
        split; try reflexivity; discriminate.
    + cbn [bind wp lift resume]. unfold except_post, error_reported;
        cbn [is_Exception]; trace_simpl; split; intros; try discriminate;
        split; try reflexivity; discriminate.
Qed.

Lemma error_reported_app t1 t2 :
  error_reported (t1 ++ t2) = error_reported t1 || error_reported t2.
Proof. unfold error_reported. rewrite printed_app. apply existsb_app. Qed.

Lemma interrupted_unanswered t :
  existsb interrupted t = true -> forallb answered t = false.
Proof.
  induction t as [| en t IH]; cbn [existsb forallb]; [discriminate |].
  intro H. apply orb_true_iff in H. destruct H as [H | H].
  - destruct en as [X ev [a | [| c]]]; cbn in H |- *; try discriminate. reflexivity.
  - rewrite (IH H). apply andb_false_r.
Qed.

Lemma iteration_post_except d q e pre res t :
  error_reported pre = false ->
  (is_Exception e = false -> existsb interrupted pre = true) ->
  except_post e res t ->
  iteration_post d q res (pre ++ t).
Proof.
  intros Hpre Hint [Hexc Hkbd]. unfold iteration_post.
  rewrite error_reported_app, existsb_app, forallb_app, printed_app, Hpre.
  cbn [orb]. destruct (is_Exception e) eqn:He.
  - destruct (Hexc eq_refl) as [Herr Hres]. rewrite Herr. split; [| split].
    + intro H. contradiction.
    + intros _ H. discriminate H.
    + intros; left; reflexivity.
  - specialize (Hint eq_refl). specialize (Hkbd eq_refl).
    rewrite Hint, (interrupted_unanswered _ Hint). cbn [orb andb]. split; [| split].
    + intros _ H. discriminate H.
    + intro H. discriminate H.
    + intros. right. apply in_or_app. right. exact Hkbd.
Qed.

Lemma iteration_after_wp ci t0 last d q :
  wp (iteration_after ci t0 last (d, q)) (iteration_post d q).
Proof.
  unfold iteration_after. cbn [fst snd].
  apply wp_bind, wp_try_except, wp_bind.
  eapply wp_mono; [| apply dashboard_wp].
  intros res t [Hnoerr Hres]. destruct res as [[| c] | e]; cbn [wp].
  - rewrite !app_nil_r. destruct Hres as [Hidle Hline]. unfold iteration_post.
    split; [| split].
    + auto.
    + intros _ _. split; [reflexivity |]. intro H. rewrite H in Hidle. discriminate.
    + discriminate.
  - rewrite app_nil_r. destruct Hres as [Hidle Hc].
    destruct (time_sleep_cases ci) as [-> | ->]; unfold perform;
      cbn [bind try_except wp].
    + eapply wp_mono; [| apply monitor_except_wp].
      intros res t' Hpost.
      apply (iteration_post_except d q (Exception ValueError));
        [exact Hnoerr | discriminate | exact Hpost].
    + intros [[] | e]; cbn [bind try_except wp resume].
      * unfold iteration_post.
        split; [| split].
        -- discriminate.
        -- intros _ _. split.
           ++ intro H. rewrite H in Hidle. discriminate.
           ++ intros _. exists c. auto.
        -- discriminate.
      * eapply wp_mono; [| apply monitor_except_wp].
        intros res t' Hpost.
        change (Entry (ESleep (PInt ci)) (Raise e) :: t')
          with ([Entry (ESleep (PInt ci)) (Raise e)] ++ t').
        rewrite app_assoc. apply (iteration_post_except d q e); [| | exact Hpost].
        -- rewrite error_reported_app, Hnoerr. reflexivity.
        -- intro He. rewrite existsb_app. destruct e; [| discriminate He].
           cbn. apply orb_true_r.
  - apply wp_bind. eapply wp_mono; [| apply monitor_except_wp].
    intros res t' Hpost.
    assert (Hfinal : iteration_post d q
                       match res with Ok s => Ok s | Raise e' => Raise e' end (t ++ t')).
    { apply (iteration_post_except d q e); [exact Hnoerr | | ].
      - intro He. destruct e; [exact Hres | discriminate He].
      - destruct res; exact Hpost. }
    destruct res as [st | e']; cbn [wp]; rewrite ?app_nil_r; exact Hfinal.
Qed.

End Logic.

(** ** Properties of the client *)

Module Claims.
Import Py IO BulkCrawler Spec Script Logic.
Local Open Scope string_scope.
Local Open Scope list_scope.

(** *** The importer *)

Lemma import_inv_prelude self domains indices res t en :
  answered en = true -> post_of en = None -> action_of en = None ->
  import_inv self domains indices res t ->
  import_inv self domains indices res (en :: t).
Proof.
  intros Ha Hp Hc. unfold import_inv. cbn [posts actions forallb].
  rewrite Ha, Hp, Hc. cbn [andb]. auto.
Qed.

Lemma import_csv_inv self file :
  wp (import_domains_from_csv self file)
     (fun res t =>
        forall rows domains,
          rows_read t = Some rows -> read_rows rows [] = Ok domains ->
          import_inv self domains (py_range 0 (List.length domains) batch_size) res t).
Proof.
  unfold import_domains_from_csv, print, perform.
  wp_step; [| intros rows domains H; discriminate H].
  wp_step; [| intros rows domains H; discriminate H].
  wp_step; [| intros rows domains H Hd; cbn in H; injection H as ->; congruence].
  wp_step.
  - cbn [bind resume lift]. eapply wp_mono; [| apply import_batches_inv].
    intros res t Hinv rows domains H Hd. cbn in H. injection H as ->.
    assert (a0 = domains) as -> by congruence.
    repeat (apply import_inv_prelude; [reflexivity | reflexivity | reflexivity |]).
    exact Hinv.
  - intros rows domains H Hd. cbn in H. injection H as ->.
    assert (a0 = domains) as -> by congruence. import_leaf.
Qed.

Lemma import_run_facts {S} (h : handler S) (s : S) self file rows :
  let x := run h (import_domains_from_csv self file) s in
  rows_read (events x) = Some rows ->
  forallb valid_row rows = true ->
  exists domains,
    Forall2 row_record rows domains /\
    import_inv self domains (py_range 0 (List.length domains) batch_size)
      (outcome x) (events x).
Proof.
  intros x Hrows Hvalid.
  destruct (valid_rows_parse rows [] Hvalid) as (domains & Hparse & Hrec).
  cbn [app] in Hparse. exists domains. split; [exact Hrec |].
  exact (wp_run _ _ (import_csv_inv self file) S h s rows domains Hrows Hparse).
Qed.

(** C1, as amended.  In every run of the importer in which the CSV file is
    read and every row is valid: every import call before the last one was
    accepted (answered with status 200 and a JSON object whose [success] flag
    is truthy), so nothing is sent after a call that was not; the importer
    returns [True] exactly when every effect was answered and every call was
    accepted; it returns [False] exactly when every effect was answered and the
    last call was refused (another status, or status 200 with a JSON object
    whose flag is missing or falsy); and it raises when the last call was
    neither accepted nor refused (the call raised, or its body is not a JSON
    object). *)
Theorem import_stops_at_first_refusal :
  forall S (h : handler S) (s : S) self file rows,
    let x := run h (import_domains_from_csv self file) s in
    let calls := map snd (posts (events x)) in
    rows_read (events x) = Some rows ->
    forallb valid_row rows = true ->
    forallb call_accepted (removelast calls) = true /\
    (outcome x = Ok true <->
     forallb answered (events x) = true /\ forallb call_accepted calls = true) /\
    (outcome x = Ok false <->
     forallb answered (events x) = true /\
     exists l c, calls = l ++ [c] /\ call_refused c = true) /\
    (forall l c, calls = l ++ [c] ->
                 call_accepted c = false -> call_refused c = false ->
                 exists e, outcome x = Raise e).
Proof.
  intros S h s self file rows x calls Hrows Hvalid.
  destruct (import_run_facts h s self file rows Hrows Hvalid)
    as (domains & _ & _ & Htrue & _ & Hfalse & Hmid).
  fold x in Htrue, Hfalse, Hmid. fold calls in Htrue, Hfalse, Hmid.
  repeat apply conj; try tauto.
  intros l c Hl Hacc Href. destruct (outcome x) as [[|] | e] eqn:Hout.
  - exfalso. destruct (proj1 Htrue eq_refl) as [_ Hall].
    rewrite Hl, forallb_app in Hall. cbn in Hall. rewrite Hacc in Hall.
    rewrite andb_false_r in Hall. discriminate.
  - exfalso. destruct (proj1 Hfalse eq_refl) as [_ (l' & c' & Hl' & Hc')].
    rewrite Hl in Hl'. apply app_inj_tail in Hl'. destruct Hl' as [_ <-]. congruence.
  - eauto.
Qed.

Lemma import_stops_at_first_refusal_witness :
  let x := run scripted (import_domains_from_csv local_crawler "domains.csv")
               world_250_refused in
  outcome x = Ok false /\ List.length (posts (events x)) = 2%nat.
Proof.
  split; [| vm_compute; reflexivity].
  apply (proj1 (proj2 (proj2 (import_stops_at_first_refusal _ scripted world_250_refused
                         local_crawler "domains.csv" (repeat example_row 250)
                         ltac:(vm_compute; reflexivity)
                         ltac:(vm_compute; reflexivity))))).
  split; [vm_compute; reflexivity |].
  exists [Ok (json_response 200 success_body)],
         (Ok (text_response 500 "Internal Server Error")).
  split; vm_compute; reflexivity.
Defined.

(** C1 as stated fails: a call answered [201 Created] with a true
    [success] flag indicates success in the specification's sense, and so does
    a call answered [200] without any flag; the importer returns [False] on
    each. *)
Lemma import_refuses_created_counterexample :
  let x := run scripted (import_domains_from_csv local_crawler "domains.csv") world_created in
  let y := run scripted (import_domains_from_csv local_crawler "domains.csv") world_flagless in
  map snd (posts (events x)) = [Ok created_response] /\
  spec_indicates_success created_response = true /\
  outcome x = Ok false /\
  map snd (posts (events y)) = [Ok flagless_response] /\
  spec_indicates_success flagless_response = true /\
  outcome y = Ok false.
Proof. repeat split; reflexivity. Qed.

(** Half a second is the float [1/2]. *)
Lemma float_half_value : int_truediv 1 2 = Ok float_half.
Proof. reflexivity. Qed.

(** C3, as amended.  In every run of the importer in which the CSV file is
    read and its [N] rows are valid, the records are those of the rows, in
    file order, and their chunks are [ceil(N/100)] consecutive parts of at
    most 100 records, all of exactly 100 except the last.  The calls and
    pauses of the run are the first ones of the plan "call with chunk 1,
    pause 0.5 s, call with chunk 2, pause 0.5 s, ...", each call carrying the
    object whose [domains] item lists the records of its chunk; every call
    before the last one issued was accepted; and when every effect was
    answered and every call accepted, the run carried out the whole plan. *)
Theorem import_sends_batches_of_100 :
  forall S (h : handler S) (s : S) self file rows,
    let x := run h (import_domains_from_csv self file) s in
    rows_read (events x) = Some rows ->
    forallb valid_row rows = true ->
    exists domains,
      let parts := chunks 100 domains in
      Forall2 row_record rows domains /\
      List.length parts = ((List.length rows + 99) / 100)%nat /\
      List.concat parts = domains /\
      Forall (fun b => (0 < List.length b <= 100)%nat) parts /\
      Forall (fun b => List.length b = 100%nat) (removelast parts) /\
      (exists k, actions (events x) = firstn k (expected_plan self parts)) /\
      forallb call_accepted (removelast (map snd (posts (events x)))) = true /\
      (forallb answered (events x) = true ->
       forallb call_accepted (map snd (posts (events x))) = true ->
       actions (events x) = expected_plan self parts).
Proof.
  intros S h s self file rows x Hrows Hvalid.
  destruct (import_run_facts h s self file rows Hrows Hvalid)
    as (domains & Hrec & Hpre & Htrue & Hall & _ & Hmid).
  fold x in Hpre, Htrue, Hall, Hmid.
  rewrite plan_of_batches, expected_plan_batches in Hpre, Hall.
  exists domains. cbn zeta.
  assert (Hlen : List.length rows = List.length domains) by (eapply Forall2_length; eauto).
  destruct (chunks_facts domains) as (Hn & Hcat & Hsize & Hfull).
  rewrite Hlen. repeat apply conj; auto.
  intros Ha Hc. apply Hall, Htrue. auto.
Qed.

Lemma import_sends_batches_of_100_witness :
  let x := run scripted (import_domains_from_csv local_crawler "domains.csv") world_250 in
  exists domains,
    Forall2 row_record (repeat example_row 250) domains /\
    List.length (chunks 100 domains) = 3%nat /\
    actions (events x) = expected_plan local_crawler (chunks 100 domains).
Proof.
  destruct (import_sends_batches_of_100 _ scripted world_250 local_crawler "domains.csv"
              (repeat example_row 250)
              ltac:(vm_compute; reflexivity) ltac:(vm_compute; reflexivity))
    as (domains & Hrec & Hlen & _ & _ & _ & _ & _ & Hall).
  exists domains. repeat split; [exact Hrec | exact Hlen |].
  apply Hall; vm_compute; reflexivity.
Defined.

(** C3 as stated fails: with 250 valid rows and the first import call
    answered [500], the importer issues one call, not [ceil(250/100) = 3]. *)
Lemma import_cut_short_counterexample :
  let x := run scripted (import_domains_from_csv local_crawler "domains.csv") world_250_down in
  rows_read (events x) = Some (repeat example_row 250) /\
  forallb valid_row (repeat example_row 250) = true /\
  ((250 + 99) / 100 = 3)%nat /\
  List.length (posts (events x)) = 1%nat /\
  outcome x = Ok false.
Proof. repeat split; vm_compute; reflexivity. Qed.

(** C6: the code at an empty [max_pages] cell.  [int('')] raises
    [ValueError]: the row yields no record, and the importer ends with that
    exception before it sends anything. *)
Theorem empty_max_pages_raises :
  let x := run scripted (import_domains_from_csv local_crawler "domains.csv") world_blank in
  row_max_pages blank_row = Raise ValueError /\
  domain_of_row blank_row = Raise ValueError /\
  outcome x = Raise (Exception ValueError) /\
  posts (events x) = [].
Proof. repeat split; reflexivity. Qed.

(** The other two cases of C6 hold: the number in the cell, and 5 when the
    header has no [max_pages] column. *)
Lemma max_pages_of_cell row d w s z :
  row_item row "domain" = Ok d -> row_item row "webmaster_email" = Ok w ->
  lookup "max_pages" row = Some (Some s) -> int_of_str s = Ok z ->
  domain_of_row row = Ok {| domain := d; webmasterEmail := w; maxPages := z |}.
Proof.
  intros Hd Hw Hm Hz. unfold domain_of_row, row_max_pages.
  rewrite Hd, Hw, Hm, Hz. reflexivity.
Qed.

Lemma max_pages_default row d w :
  row_item row "domain" = Ok d -> row_item row "webmaster_email" = Ok w ->
  lookup "max_pages" row = None ->
  domain_of_row row = Ok {| domain := d; webmasterEmail := w; maxPages := 5 |}.
Proof.
  intros Hd Hw Hm. unfold domain_of_row, row_max_pages.
  rewrite Hd, Hw, Hm. reflexivity.
Qed.

(** *** The crawl start *)

Lemma start_bulk_crawl_posts self max_concurrent :
  wp (start_bulk_crawl self max_concurrent)
     (fun _ t =>
        let body := expected_crawl_body max_concurrent in
        (posts t = [] \/ exists a, posts t = [(crawl_url self, body, a)]) /\
        (prints_answered t = true -> exists a, posts t = [(crawl_url self, body, a)])).
Proof.
  unfold start_bulk_crawl, print, requests_post, perform.
  repeat wp_step; cbn [bind wp lift resume]; trace_simpl; cbn zeta.
  all: split; [eauto | intro Hp; try discriminate Hp; eauto].
Qed.

(** C4.  Whatever the flag [--max-concurrent] is and whatever the service
    and the terminal answer, the crawl-start method sends at most one
    request, and sends it whenever its first line was printed: to the
    crawl-start address, with exactly the object made of [maxConcurrent] set
    from the flag, [emailNotifications] true and [crawlConfig] holding the
    six fixed parameters maxPages 5, maxDepth 3, politenessDelay 1000,
    respectRobotsTxt true, restrictToSeedDomain true, requestTimeout 30000. *)
Theorem crawl_start_body_fixed :
  forall S (h : handler S) (s : S) self max_concurrent,
    let x := run h (start_bulk_crawl self max_concurrent) s in
    let body :=
      JDict [("maxConcurrent", JInt max_concurrent);
             ("emailNotifications", JBool true);
             ("crawlConfig",
              JDict [("maxPages", JInt 5);
                     ("maxDepth", JInt 3);
                     ("politenessDelay", JInt 1000);
                     ("respectRobotsTxt", JBool true);
                     ("restrictToSeedDomain", JBool true);
                     ("requestTimeout", JInt 30000)])] in
    (posts (events x) = [] \/
     exists a, posts (events x) = [(crawl_url self, body, a)]) /\
    (prints_answered (events x) = true ->
     exists a, posts (events x) = [(crawl_url self, body, a)]).
Proof.
  intros S h s self max_concurrent x body.
  exact (wp_run _ _ (start_bulk_crawl_posts self max_concurrent) S h s).
Qed.

Lemma crawl_start_body_fixed_witness :
  exists a,
    posts (events (run scripted (start_bulk_crawl local_crawler 8) world_started))
    = [("http://localhost:3000/api/v2/domains/crawl/bulk",
        expected_crawl_body 8, a)].
Proof.
  apply (proj2 (crawl_start_body_fixed _ scripted world_started local_crawler 8)).
  reflexivity.
Defined.

(** *** The exporter *)

Lemma export_results_wp self file :
  wp (export_results self file)
     (fun _ t =>
        (forall r, map snd (gets t) = [Ok r] -> status_code r = 200%Z ->
                   forallb answered t = true ->
                   file_ops t = [FOpen file; FWrite file (text r)]) /\
        ((forall r, In (Ok r) (map snd (gets t)) -> status_code r <> 200%Z) ->
         file_ops t = [])).
Proof.
  unfold export_results, print, requests_get, perform.
  repeat wp_step; cbn [bind wp lift resume]; trace_simpl.
  all: split; [intros r0 Hg Hs Ha | intros Hn]; try discriminate; try reflexivity.
  all: try (injection Hg as <-).
  all: try (exfalso; apply Z.eqb_eq in Heqb; eapply Hn; [left; reflexivity | exact Heqb]).
  all: try (apply Z.eqb_neq in Heqb; contradiction).
  all: reflexivity.
Qed.

(** C5, as amended.  In every run of the exporter: when the export call
    was answered with status exactly 200 and no print, opening or write
    raised, the file was opened for writing and the decoded text of the
    response, [response.text], written to it; when no answer with status 200
    came, nothing was opened or written. *)
Theorem export_writes_text_on_200 :
  forall S (h : handler S) (s : S) self file,
    let x := run h (export_results self file) s in
    (forall r, map snd (gets (events x)) = [Ok r] -> status_code r = 200%Z ->
               forallb answered (events x) = true ->
               file_ops (events x) = [FOpen file; FWrite file (text r)]) /\
    ((forall r, In (Ok r) (map snd (gets (events x))) -> status_code r <> 200%Z) ->
     file_ops (events x) = []).
Proof.
  intros S h s self file x.
  exact (wp_run _ _ (export_results_wp self file) S h s).
Qed.

Lemma export_writes_text_on_200_witness :
  file_ops (events (run scripted (export_results local_crawler "crawl_results.csv") world_export))
  = [FOpen "crawl_results.csv"; FWrite "crawl_results.csv" export_text].
Proof.
  apply (proj1 (export_writes_text_on_200 _ scripted world_export local_crawler
                  "crawl_results.csv") (text_response 200 export_text));
    reflexivity.
Defined.

(** C5 as stated fails twice.  An export answered with the 2xx status 203
    and a body writes nothing.  And an export answered with status 200 whose
    body is the ISO 8859-1 byte 233 has the two-byte string of
    [response.text] written, not the body. *)
Lemma export_skips_203_counterexample :
  let x := run scripted (export_results local_crawler "crawl_results.csv") world_export_203 in
  let y := run scripted (export_results local_crawler "crawl_results.csv")
             world_export_latin1 in
  (map snd (gets (events x)) = [Ok (text_response 203 export_text)] /\
   is_2xx (status_code (text_response 203 export_text)) = true /\
   file_ops (events x) = []) /\
  (map snd (gets (events y)) = [Ok latin1_response] /\
   status_code latin1_response = 200%Z /\
   forallb answered (events y) = true /\
   file_ops (events y) = [FOpen "crawl_results.csv"; FWrite "crawl_results.csv" "é"] /\
   String.length (content latin1_response) = 1%nat /\
   String.length "é" = 2%nat /\
   file_ops (events y)
   <> [FOpen "crawl_results.csv"; FWrite "crawl_results.csv" (content latin1_response)]).
Proof.
  cbv zeta. split; [repeat split; reflexivity |].
  do 6 (split; [reflexivity |]).
  intro H. discriminate H.
Qed.

(** *** The statistics *)

Lemma get_stats_wp self :
  wp (get_stats self)
     (fun res t =>
        (forall r1 r2 d q,
            map snd (gets t) = [Ok r1; Ok r2] ->
            stats_of r1 = Ok d -> stats_of r2 = Ok q -> res = Ok (d, q)) /\
        (forall c, In (Raise (Exception c)) (map snd (gets t)) ->
                   prints_answered t = true -> res = Ok (JDict [], JDict [])) /\
        (forall r1 r2,
            map snd (gets t) = [Ok r1; Ok r2] ->
            is_ok (stats_of r1) && is_ok (stats_of r2) = false ->
            prints_answered t = true -> res = Ok (JDict [], JDict [])) /\
        (forall e, res = Raise e ->
                   existsb interrupted t = true \/ prints_answered t = false)).
Proof.
  unfold get_stats, print, requests_get, perform.
  repeat wp_step; cbn [bind wp lift resume try_except is_Exception]; trace_simpl.
  all: split; [intros r1 r2 d q Hg H1 H2
              | split; [intros cls Hin Hp
                       | split; [intros r1 r2 Hg Hs Hp | intros ex He]]].
  all: try discriminate; try reflexivity.
  all: try (injection Hg as <- <-).
  all: try (destruct Hin as [Hin | Hin]; try discriminate).
  all: try (destruct Hin as [Hin | Hin]; try discriminate).
  all: try contradiction.
  all: try congruence.
  all: try (left; reflexivity); try (right; reflexivity).
  all: try (rewrite ?Heqv, ?Heqv0 in Hs; discriminate Hs).
Qed.

(** C8, as amended.  In every run of [get_stats]: a call answered with a
    status other than 200 counts as an empty mapping; when both calls were
    answered and both bodies decoded, the result holds each call's own
    mapping, so a status other than 200 empties that call's mapping only;
    when either call raised an exception, or either body could not be
    decoded, both mappings of the result are empty; and [get_stats] raises
    nothing but the operator's interrupt, unless printing its own error line
    failed. *)
Theorem get_stats_fallback :
  forall S (h : handler S) (s : S) self,
    let x := run h (get_stats self) s in
    let answers := map snd (gets (events x)) in
    (forall r, status_code r <> 200%Z -> stats_of r = Ok (JDict [])) /\
    (forall r1 r2 d q,
        answers = [Ok r1; Ok r2] ->
        stats_of r1 = Ok d -> stats_of r2 = Ok q -> outcome x = Ok (d, q)) /\
    (forall c, In (Raise (Exception c)) answers ->
               prints_answered (events x) = true ->
               outcome x = Ok (JDict [], JDict [])) /\
    (forall r1 r2,
        answers = [Ok r1; Ok r2] ->
        is_ok (stats_of r1) && is_ok (stats_of r2) = false ->
        prints_answered (events x) = true ->
        outcome x = Ok (JDict [], JDict [])) /\
    (forall e, outcome x = Raise e ->
               existsb interrupted (events x) = true \/
               prints_answered (events x) = false).
Proof.
  intros S h s self x answers. split.
  - intros r Hr. unfold stats_of. apply Z.eqb_neq in Hr. rewrite Hr. reflexivity.
  - exact (wp_run _ _ (get_stats_wp self) S h s).
Qed.

Lemma get_stats_fallback_witness :
  outcome (run scripted (get_stats local_crawler) world_queue_503)
  = Ok (domain_counters, JDict []).
Proof.
  apply (proj1 (proj2 (get_stats_fallback _ scripted world_queue_503 local_crawler))
           (stats_response domain_counters) (text_response 503 "Service Unavailable"));
    reflexivity.
Defined.

(** C8 as stated fails: when the queue call raises a connection error,
    the mapping of the domain call, which was answered and decoded, is
    lost. *)
Lemma get_stats_loses_domains_counterexample :
  let x := run scripted (get_stats local_crawler) world_queue_down in
  map snd (gets (events x)) =
    [Ok (stats_response domain_counters); Raise (Exception RequestException)] /\
  stats_of (stats_response domain_counters) = Ok domain_counters /\
  outcome x = Ok (JDict [], JDict []).
Proof. repeat split; reflexivity. Qed.

End Claims.
